(** * Team project planner: users, teams, boards and tasks

    A shallow embedding of the managers in [concrete/user.py],
    [concrete/teams.py] and [concrete/board.py], together with the
    helpers of [utils/validators.py] they call.

    Modelling conventions.
    - A Python [str] is a [string]; every character stands for one code
      point below 256, so that [String.length] is Python's [len].
    - The four JSON files under [db/] are the four fields of [db].  A
      missing file and a file holding an empty collection are the same
      to every operation ([load_json] returns the empty default), so the
      collection is a list and the missing file is [[]].
    - An operation is a computation in the monad [M]: it reads the store,
      may raise, and changes the store only through [save_*], exactly as
      the Python code changes the files only through [save_json].  The
      store that comes back with a raised exception is the store on disk
      at the time of the [raise].
    - [uuid.uuid4()] and [datetime.now().isoformat()] are inputs of the
      operation that calls them ([fresh], [now]).
    - A request is the decoded JSON object, with strings for the values
      of its fields and a list of strings for ["users"].  A field read
      with [data.get(k, "")] is a [string] (absent = [""]); a field read
      with [data.get(k)] is an [option string] (absent = [None]).  A body
      that is no JSON object, and a value of another JSON type in a field
      (on which [.strip()] raises [AttributeError]), are not requests of
      this model.
    - A write returns.  [save_json] of [teams.py] and [board.py] calls
      [json.dump] with its default [ensure_ascii], which writes every
      string.  [FileHandler.save_json], which [user.py] uses, writes with
      [ensure_ascii=False] and fails on a code point that UTF-8 cannot
      encode (a lone surrogate), after the file is opened for writing;
      the code points below 256 are all encodable, so no [string] here
      makes it fail.  A write that fails, for this or for a reason of the
      file system, is not modelled.
    - A Python [set] is a [gset]; [list(s)] is [elements s].  Python
      fixes no order for [list(s)], and no statement below depends on
      one. *)

From Stdlib Require Import String Ascii.
From stdpp Require Import base option list strings pretty gmap.

Local Open Scope string_scope.

(** ** Python string helpers *)

(** [str.isspace] on the code points below 256. *)
Definition isspace (c : ascii) : bool :=
  let n := nat_of_ascii c in
  (Nat.leb 9 n && Nat.leb n 13) || (Nat.leb 28 n && Nat.leb n 32)
  || Nat.eqb n 133 || Nat.eqb n 160.

Fixpoint lstrip (s : string) : string :=
  match s with
  | EmptyString => EmptyString
  | String c r => if isspace c then lstrip r else s
  end.

Fixpoint rstrip (s : string) : string :=
  match s with
  | EmptyString => EmptyString
  | String c r =>
      match rstrip r with
      | EmptyString => if isspace c then EmptyString else String c EmptyString
      | r' => String c r'
      end
  end.

(** [s.strip()] *)
Definition strip (s : string) : string := rstrip (lstrip s).

(** [len(s) > n] *)
Definition longer_than (s : string) (n : nat) : bool := Nat.ltb n (String.length s).

(** Truth value of a string and of the result of [data.get(k)]. *)
Definition truthy (s : string) : bool := negb (String.eqb s "").

Definition truthy_opt (o : option string) : bool :=
  match o with
  | None => false
  | Some s => truthy s
  end.

(** [x in l] for a list of strings *)
Definition elem_str (x : string) (l : list string) : bool :=
  existsb (String.eqb x) l.

(** [next((i for i, x in enumerate(l) if p(x)), None)] *)
Fixpoint find_index {A : Type} (p : A -> bool) (l : list A) : option nat :=
  match l with
  | [] => None
  | x :: r => if p x then Some 0 else S <$> find_index p r
  end.

(** ** Exceptions *)

(** The exception classes the managers raise.  [teams.py] and [board.py]
    raise the builtin [ValueError] for every rejected request (the HTTP
    layer of [views.py] answers it with status 400 and the message).
    [utils/validators.py] defines a [ValidationError] of its own, which is
    not the [ValidationError] of [utils/exceptions.py] that [user.py]
    imports; the former is [ValidatorsValidationError] here. *)
Inductive exn : Type :=
  | ValueError (msg : string)
  | ValidatorsValidationError (msg : string)
  | ValidationError (msg : string)
  | ResourceNotFoundError (msg : string)
  | DuplicateResourceError (msg : string).

Definition is_DuplicateResourceError (e : exn) : bool :=
  match e with
  | DuplicateResourceError _ => true
  | _ => false
  end.

(** ** The persisted collections *)

Record user : Type := mk_user {
  u_id : string;
  u_name : string;
  u_display_name : string;
  u_creation_time : string
}.

Record team : Type := mk_team {
  t_id : string;
  t_name : string;
  t_description : string;
  t_admin : string;
  t_members : list string;
  t_creation_time : string
}.

Record board : Type := mk_board {
  b_id : string;
  b_name : string;
  b_description : string;
  b_team_id : string;
  b_creation_time : string;
  b_status : string;
  b_end_time : option string
}.

Record task : Type := mk_task {
  k_id : string;
  k_title : string;
  k_description : string;
  k_user_id : string;
  k_board_id : string;
  k_creation_time : string;
  k_status : string
}.

Record db : Type := mk_db {
  users : list user;
  teams : list team;
  boards : list board;
  tasks : list task
}.

Definition empty_db : db := mk_db [] [] [] [].

(** ** The store-and-exception monad *)

Inductive outcome (A : Type) : Type :=
  | Return (a : A)
  | Raise (e : exn).
Arguments Return {A} a.
Arguments Raise {A} e.

Definition M (A : Type) : Type := db -> outcome A * db.

#[global] Instance M_ret : MRet M := fun A a s => (Return a, s).

#[global] Instance M_bind : MBind M := fun A B k m s =>
  match m s with
  | (Return a, s') => k a s'
  | (Raise e, s') => (Raise e, s')
  end.

Definition raise {A : Type} (e : exn) : M A := fun s => (Raise e, s).

(** [try: m  except ...: h(e)] *)
Definition try_except {A : Type} (m : M A) (h : exn -> M A) : M A := fun s =>
  match m s with
  | (Return a, s') => (Return a, s')
  | (Raise e, s') => h e s'
  end.

(** [v = data.get(k)] followed by [if not v: raise ValueError(msg)] *)
Definition required (o : option string) (msg : string) : M string :=
  match o with
  | None => raise (ValueError msg)
  | Some v => if truthy v then mret v else raise (ValueError msg)
  end.

(** [load_json] and [save_json] on each of the four files.  [save_*] is
    the write that returns; see the conventions at the head of the file
    for the write of [FileHandler.save_json] that does not. *)
Definition load_users : M (list user) := fun s => (Return (users s), s).
Definition load_teams : M (list team) := fun s => (Return (teams s), s).
Definition load_boards : M (list board) := fun s => (Return (boards s), s).
Definition load_tasks : M (list task) := fun s => (Return (tasks s), s).

Definition save_users (l : list user) : M unit := fun s =>
  (Return tt, mk_db l (teams s) (boards s) (tasks s)).
Definition save_teams (l : list team) : M unit := fun s =>
  (Return tt, mk_db (users s) l (boards s) (tasks s)).
Definition save_boards (l : list board) : M unit := fun s =>
  (Return tt, mk_db (users s) (teams s) l (tasks s)).
Definition save_tasks (l : list task) : M unit := fun s =>
  (Return tt, mk_db (users s) (teams s) (boards s) l).

(** ** concrete/teams.py *)

Module Teams.

Record create_team_request : Type := mk_create_team_request {
  ct_name : string;
  ct_description : string;
  ct_admin : string
}.

(** [next((i for i, t in enumerate(teams) if t["id"] == team_id), None)] *)
Definition team_index (team_id : string) (teams : list team) : option nat :=
  find_index (fun t => String.eqb (t_id t) team_id) teams.

(** [any(user["id"] == user_id for user in users)] *)
Definition user_exists (user_id : string) (users : list user) : bool :=
  existsb (fun u => String.eqb (u_id u) user_id) users.

Definition create_team (fresh now : string) (req : create_team_request) : M string :=
  let name := strip (ct_name req) in
  let description := strip (ct_description req) in
  let admin := strip (ct_admin req) in
  if negb (truthy name) then raise (ValueError "Team name is required") else
  if longer_than name 64 then raise (ValueError "Team name must be <= 64 characters") else
  if longer_than description 128 then raise (ValueError "Description must be <= 128 characters") else
  if negb (truthy admin) then raise (ValueError "Admin user ID is required") else
  users ← load_users;
  if negb (user_exists admin users)
  then raise (ValueError "Admin user does not exist") else
  teams ← load_teams;
  if existsb (fun t => String.eqb (t_name t) name) teams
  then raise (ValueError "Team name must be unique") else
  let new_team := mk_team fresh name description admin [admin] now in
  save_teams (teams ++ [new_team]);;
  mret fresh.

Record team_fields : Type := mk_team_fields {
  tf_name : string;
  tf_description : string;
  tf_admin : string
}.

Record update_team_request : Type := mk_update_team_request {
  ut_id : option string;
  ut_team : team_fields
}.

Definition set_name (n : string) (t : team) : team :=
  mk_team (t_id t) n (t_description t) (t_admin t) (t_members t) (t_creation_time t).
Definition set_description (d : string) (t : team) : team :=
  mk_team (t_id t) (t_name t) d (t_admin t) (t_members t) (t_creation_time t).
Definition set_admin (a : string) (t : team) : team :=
  mk_team (t_id t) (t_name t) (t_description t) a (t_members t) (t_creation_time t).
Definition set_members (ms : list string) (t : team) : team :=
  mk_team (t_id t) (t_name t) (t_description t) (t_admin t) ms (t_creation_time t).

Definition update_team (req : update_team_request) : M unit :=
  team_id ← required (ut_id req) "Team ID is required";
  let name := strip (tf_name (ut_team req)) in
  let description := strip (tf_description (ut_team req)) in
  let admin := strip (tf_admin (ut_team req)) in
  if truthy name && longer_than name 64
  then raise (ValueError "Team name must be <= 64 characters") else
  if truthy description && longer_than description 128
  then raise (ValueError "Description must be <= 128 characters") else
  teams ← load_teams;
  match team_index team_id teams with
  | None => raise (ValueError "Team not found")
  | Some team_index =>
    if truthy name &&
       existsb (fun t => String.eqb (t_name t) name && negb (String.eqb (t_id t) team_id)) teams
    then raise (ValueError "Team name must be unique") else
    teams ←
      (if truthy admin then
         users ← load_users;
         if negb (user_exists admin users)
         then raise (ValueError "Admin user does not exist") else
         mret (alter (fun t => if elem_str admin (t_members t) then t
                               else set_members (t_members t ++ [admin]) t)
                     team_index teams)
       else mret teams);
    let teams := if truthy name then alter (set_name name) team_index teams else teams in
    let teams := if truthy description
                 then alter (set_description description) team_index teams else teams in
    let teams := if truthy admin then alter (set_admin admin) team_index teams else teams in
    save_teams teams
  end.

Record users_request : Type := mk_users_request {
  ur_id : option string;
  ur_users : list string
}.

(** The first element of [user_ids] that is no id of [users]. *)
Definition first_missing (user_ids : list string) (users : list user) : option string :=
  let existing_users : gset string := list_to_set (u_id <$> users) in
  List.find (fun user_id => negb (bool_decide (user_id ∈ existing_users))) user_ids.

(** [set(teams[team_index].get("members", []))] *)
Definition members_at (team_index : nat) (teams : list team) : gset string :=
  list_to_set (default [] (t_members <$> teams !! team_index)).

Definition add_users_to_team (req : users_request) : M unit :=
  team_id ← required (ur_id req) "Team ID is required";
  let user_ids := ur_users req in
  users ← load_users;
  match first_missing user_ids users with
  | Some user_id => raise (ValueError ("User " +:+ user_id +:+ " does not exist"))
  | None =>
    teams ← load_teams;
    match team_index team_id teams with
    | None => raise (ValueError "Team not found")
    | Some team_index =>
      let current_members := members_at team_index teams in
      let new_members := current_members ∪ list_to_set user_ids in
      if Nat.ltb 50 (size new_members)
      then raise (ValueError "Cannot add users: team would exceed 50 member limit") else
      save_teams (alter (set_members (elements new_members)) team_index teams)
    end
  end.

Definition remove_users_from_team (req : users_request) : M unit :=
  team_id ← required (ur_id req) "Team ID is required";
  let user_ids := ur_users req in
  teams ← load_teams;
  match team_index team_id teams with
  | None => raise (ValueError "Team not found")
  | Some team_index =>
    let current_members := members_at team_index teams in
    let admin_id := default "" (t_admin <$> teams !! team_index) in
    if elem_str admin_id user_ids
    then raise (ValueError "Cannot remove team admin from team") else
    let new_members := current_members ∖ list_to_set user_ids in
    save_teams (alter (set_members (elements new_members)) team_index teams)
  end.

(** The fields that [list_teams] and [describe_team] return. *)
Record team_info : Type := mk_team_info {
  ti_name : string;
  ti_description : string;
  ti_creation_time : string;
  ti_admin : string
}.

Definition info_of (t : team) : team_info :=
  mk_team_info (t_name t) (t_description t) (t_creation_time t) (t_admin t).

Definition list_teams : M (list team_info) :=
  teams ← load_teams;
  mret (info_of <$> teams).

Definition describe_team (id : option string) : M team_info :=
  team_id ← required id "Team ID is required";
  teams ← load_teams;
  match List.find (fun t => String.eqb (t_id t) team_id) teams with
  | None => raise (ValueError "Team not found")
  | Some team => mret (info_of team)
  end.

(** The entries of [list_team_users]: id, name and display name. *)
Record member_info : Type := mk_member_info {
  mi_id : string;
  mi_name : string;
  mi_display_name : string
}.

(** [{user["id"]: user for user in users}]: a later user replaces an
    earlier one of the same id. *)
Definition users_by_id (users : list user) : gmap string user :=
  foldl (fun m u => <[u_id u := u]> m) ∅ users.

Definition list_team_users (id : option string) : M (list member_info) :=
  team_id ← required id "Team ID is required";
  teams ← load_teams;
  match List.find (fun t => String.eqb (t_id t) team_id) teams with
  | None => raise (ValueError "Team not found")
  | Some team =>
    users ← load_users;
    let users := users_by_id users in
    mret (omap (fun user_id =>
                  (fun user => mk_member_info (u_id user) (u_name user) (u_display_name user))
                    <$> users !! user_id)
               (t_members team))
  end.

End Teams.

(** ** concrete/board.py *)

Module ProjectBoard.

Record create_board_request : Type := mk_create_board_request {
  cb_name : string;
  cb_description : string;
  cb_team_id : string;
  cb_creation_time : option string
}.

(** [creation_time] of the request, or [datetime.now().isoformat()] when
    it is absent or empty. *)
Definition time_or_now (o : option string) (now : string) : string :=
  if truthy_opt o then default now o else now.

Definition create_board (fresh now : string) (req : create_board_request) : M string :=
  let name := strip (cb_name req) in
  let description := strip (cb_description req) in
  let team_id := strip (cb_team_id req) in
  if negb (truthy name) then raise (ValueError "Board name is required") else
  if longer_than name 64 then raise (ValueError "Board name must be <= 64 characters") else
  if truthy description && longer_than description 128
  then raise (ValueError "Description must be <= 128 characters") else
  if negb (truthy team_id) then raise (ValueError "Team ID is required") else
  let creation_time := time_or_now (cb_creation_time req) now in
  teams ← load_teams;
  if negb (existsb (fun t => String.eqb (t_id t) team_id) teams)
  then raise (ValueError "Team ID does not exist") else
  boards ← load_boards;
  if existsb (fun b => String.eqb (b_team_id b) team_id && String.eqb (b_name b) name) boards
  then raise (ValueError "Board name must be unique within the team") else
  let new_board := mk_board fresh name description team_id creation_time "OPEN" None in
  save_boards (boards ++ [new_board]);;
  mret fresh.

(** [boards[i]["status"] = "CLOSED"; boards[i]["end_time"] = now] *)
Definition close (now : string) (b : board) : board :=
  mk_board (b_id b) (b_name b) (b_description b) (b_team_id b) (b_creation_time b)
           "CLOSED" (Some now).

(** [next((i for i, b in enumerate(boards) if b["id"] == board_id), None)] *)
Definition board_index (board_id : string) (boards : list board) : option nat :=
  find_index (fun b => String.eqb (b_id b) board_id) boards.

(** [[t for t in tasks if t["board_id"] == board_id]] *)
Definition board_tasks (board_id : string) (tasks : list task) : list task :=
  filter (fun t => k_board_id t = board_id) tasks.

Definition close_board (now : string) (id : option string) : M unit :=
  board_id ← required id "Board ID is required";
  boards ← load_boards;
  tasks ← load_tasks;
  match board_index board_id boards with
  | None => raise (ValueError "Board not found")
  | Some board_index =>
    if String.eqb (default "" (b_status <$> boards !! board_index)) "CLOSED"
    then raise (ValueError "Board is already closed") else
    let incomplete_tasks :=
      filter (fun t => k_status t ≠ "COMPLETE") (board_tasks board_id tasks) in
    match incomplete_tasks with
    | _ :: _ => raise (ValueError "Cannot close board: not all tasks are complete")
    | [] => save_boards (alter (close now) board_index boards)
    end
  end.

Record add_task_request : Type := mk_add_task_request {
  at_title : string;
  at_description : string;
  at_user_id : string;
  at_creation_time : option string;
  at_board_id : option string
}.

(** [next((b for b in boards if b["id"] == board_id), None)] *)
Definition find_board (board_id : string) (boards : list board) : option board :=
  List.find (fun b => String.eqb (b_id b) board_id) boards.

(** The board a task goes to: the one named by [board_id] when that is
    given, else the last OPEN board of the whole collection. *)
Definition resolve_board (board_id : option string) (boards : list board) : M board :=
  match (if truthy_opt board_id then board_id else None) with
  | Some board_id =>
    match find_board board_id boards with
    | None => raise (ValueError "Board not found")
    | Some board =>
      if negb (String.eqb (b_status board) "OPEN")
      then raise (ValueError "Can only add tasks to OPEN boards")
      else mret board
    end
  | None =>
    let open_boards := filter (fun b => b_status b = "OPEN") boards in
    match last open_boards with
    | None => raise (ValueError "No open boards available to add a task")
    | Some board => mret board
    end
  end.

Definition add_task (fresh now : string) (req : add_task_request) : M string :=
  let title := strip (at_title req) in
  let description := strip (at_description req) in
  let user_id := strip (at_user_id req) in
  if negb (truthy title) then raise (ValueError "Task title is required") else
  if longer_than title 64 then raise (ValueError "Task title must be <= 64 characters") else
  if truthy description && longer_than description 128
  then raise (ValueError "Description must be <= 128 characters") else
  if negb (truthy user_id) then raise (ValueError "User ID is required") else
  let creation_time := time_or_now (at_creation_time req) now in
  boards ← load_boards;
  board ← resolve_board (at_board_id req) boards;
  tasks ← load_tasks;
  if existsb (fun t => String.eqb (k_title t) title) (board_tasks (b_id board) tasks)
  then raise (ValueError "Task title must be unique within the board") else
  let new_task := mk_task fresh title description user_id (b_id board) creation_time "OPEN" in
  save_tasks (tasks ++ [new_task]);;
  mret fresh.

Record update_task_status_request : Type := mk_update_task_status_request {
  us_id : option string;
  us_status : option string
}.

Definition set_status (st : string) (t : task) : task :=
  mk_task (k_id t) (k_title t) (k_description t) (k_user_id t) (k_board_id t)
          (k_creation_time t) st.

(** [next((i for i, t in enumerate(tasks) if t["id"] == task_id), None)] *)
Definition task_index (task_id : string) (tasks : list task) : option nat :=
  find_index (fun t => String.eqb (k_id t) task_id) tasks.

Definition valid_statuses : list string := ["OPEN"; "IN_PROGRESS"; "COMPLETE"].

Definition update_task_status (req : update_task_status_request) : M unit :=
  task_id ← required (us_id req) "Task ID is required";
  match us_status req with
  | None => raise (ValueError "Status must be one of: OPEN, IN_PROGRESS, COMPLETE")
  | Some status =>
    if negb (elem_str status valid_statuses)
    then raise (ValueError "Status must be one of: OPEN, IN_PROGRESS, COMPLETE") else
    tasks ← load_tasks;
    match task_index task_id tasks with
    | None => raise (ValueError "Task not found")
    | Some task_index => save_tasks (alter (set_status status) task_index tasks)
    end
  end.

Definition list_boards (id : option string) : M (list (string * string)) :=
  team_id ← required id "Team ID is required";
  boards ← load_boards;
  let team_boards := filter (fun b => b_team_id b = team_id) boards in
  mret ((fun b => (b_id b, b_name b)) <$> team_boards).

(** *** export_board *)

(** [c.isalnum()] on the code points below 256: the ASCII letters and
    digits, the Latin-1 letters, and the superscripts and fractions. *)
Definition isalnum (c : ascii) : bool :=
  let n := nat_of_ascii c in
  (Nat.leb 48 n && Nat.leb n 57) || (Nat.leb 65 n && Nat.leb n 90)
  || (Nat.leb 97 n && Nat.leb n 122)
  || Nat.eqb n 170 || Nat.eqb n 178 || Nat.eqb n 179 || Nat.eqb n 181
  || Nat.eqb n 185 || Nat.eqb n 186 || (Nat.leb 188 n && Nat.leb n 190)
  || (Nat.leb 192 n && Nat.leb n 214) || (Nat.leb 216 n && Nat.leb n 246)
  || (Nat.leb 248 n && Nat.leb n 255).

(** [c.isalnum() or c in (' ', '-', '_')] *)
Definition safe_char (c : ascii) : bool :=
  isalnum c || Ascii.eqb c " " || Ascii.eqb c "-" || Ascii.eqb c "_".

Fixpoint keep_chars (p : ascii -> bool) (s : string) : string :=
  match s with
  | EmptyString => EmptyString
  | String c r => if p c then String c (keep_chars p r) else keep_chars p r
  end.

(** ["".join(c for c in name if ...).rstrip()] *)
Definition safe_name (name : string) : string := rstrip (keep_chars safe_char name).

(** [f"board_{safe_name}_{board_id[:8]}.txt"] *)
Definition export_filename (b : board) (board_id : string) : string :=
  "board_" +:+ safe_name (b_name b) +:+ "_" +:+ String.substring 0 8 board_id +:+ ".txt".

(** The dictionary [task_counts], with its three keys. *)
Record task_counts : Type := mk_task_counts {
  n_open : nat;
  n_in_progress : nat;
  n_complete : nat
}.

(** [task_counts[status] += 1]; [None] is the [KeyError] of a status
    that is no key. *)
Definition count_status (status : string) (c : task_counts) : option task_counts :=
  if String.eqb status "OPEN"
  then Some (mk_task_counts (S (n_open c)) (n_in_progress c) (n_complete c))
  else if String.eqb status "IN_PROGRESS"
  then Some (mk_task_counts (n_open c) (S (n_in_progress c)) (n_complete c))
  else if String.eqb status "COMPLETE"
  then Some (mk_task_counts (n_open c) (n_in_progress c) (S (n_complete c)))
  else None.

(** The loop [for task in board_tasks: task_counts[task["status"]] += 1];
    the result is the failing key when the loop raises. *)
Fixpoint count_tasks (l : list task) (c : task_counts) : string + task_counts :=
  match l with
  | [] => inr c
  | t :: r =>
      match count_status (k_status t) c with
      | None => inl (k_status t)
      | Some c' => count_tasks r c'
      end
  end.

(** ["=" * n] and the like *)
Fixpoint repeat_char (c : ascii) (n : nat) : string :=
  match n with
  | 0 => EmptyString
  | S n => String c (repeat_char c n)
  end.

(** The six lines of the task numbered [i]. *)
Definition task_block (i : nat) (t : task) : list string :=
  [ pretty i +:+ ". " +:+ k_title t +:+ " [" +:+ k_status t +:+ "]";
    "   ID: " +:+ k_id t;
    "   Description: " +:+ k_description t;
    "   Assigned to: " +:+ k_user_id t;
    "   Created: " +:+ k_creation_time t;
    "" ].

(** The list [content] of [export_board]. *)
Definition export_content (now : string) (b : board) (board_tasks : list task)
    (c : task_counts) : list string :=
  [ repeat_char "=" 60;
    "BOARD EXPORT: " +:+ b_name b;
    repeat_char "=" 60;
    "Description: " +:+ b_description b;
    "Team ID: " +:+ b_team_id b;
    "Status: " +:+ b_status b;
    "Created: " +:+ b_creation_time b ]
  ++ (if truthy_opt (b_end_time b) then ["Closed: " +:+ default "" (b_end_time b)] else [])
  ++ [ "";
       "TASK SUMMARY:";
       repeat_char "-" 20;
       "Total Tasks: " +:+ pretty (length board_tasks);
       "Open: " +:+ pretty (n_open c);
       "In Progress: " +:+ pretty (n_in_progress c);
       "Complete: " +:+ pretty (n_complete c);
       "" ]
  ++ (match board_tasks with
      | [] => ["No tasks found for this board."]
      | _ => ["TASK DETAILS:"; repeat_char "-" 30]
             ++ mjoin (imap (fun i t => task_block (S i) t) board_tasks)
      end)
  ++ [ repeat_char "=" 60;
       "Export generated on: " +:+ now;
       repeat_char "=" 60 ].

(** ["\n".join(content)] *)
Fixpoint join_lines (l : list string) : string :=
  match l with
  | [] => EmptyString
  | [x] => x
  | x :: r => x +:+ String "010" (join_lines r)
  end.

(** What a call of [export_board] ends in: the file it wrote and the
    file name it returns, a [ValueError], or the [KeyError] of the
    counting loop. *)
Inductive export_result : Type :=
  | Exported (out_file : string) (text : string)
  | ExportValueError (msg : string)
  | ExportKeyError (key : string).

(** [export_board] writes no collection; it is a function of the store. *)
Definition export_board (now : string) (id : option string) (s : db) : export_result :=
  match id with
  | None => ExportValueError "Board ID is required"
  | Some board_id =>
    if negb (truthy board_id) then ExportValueError "Board ID is required" else
    match find_board board_id (boards s) with
    | None => ExportValueError "Board not found"
    | Some board =>
      let board_tasks := board_tasks board_id (tasks s) in
      let filename := export_filename board board_id in
      match count_tasks board_tasks (mk_task_counts 0 0 0) with
      | inl key => ExportKeyError key
      | inr task_counts =>
          Exported filename (join_lines (export_content now board board_tasks task_counts))
      end
    end
  end.

End ProjectBoard.

(** ** utils/validators.py and concrete/user.py *)

Module User.

Section WithUuid.

(** [uuid_ok s] holds when the library call [uuid.UUID(s)] returns, and
    fails when it raises [ValueError]. *)
Variable uuid_ok : string -> bool.

Definition MAX_NAME_LENGTH : nat := 64.
Definition MAX_DISPLAY_NAME_LENGTH : nat := 64.
Definition MAX_DISPLAY_NAME_UPDATE_LENGTH : nat := 128.

Definition validate_required_field (value : option string) (field_name : string) : M string :=
  match value with
  | None => raise (ValidatorsValidationError (field_name +:+ " is required"))
  | Some v =>
    let str_value := strip v in
    if negb (truthy str_value)
    then raise (ValidatorsValidationError (field_name +:+ " cannot be empty"))
    else mret str_value
  end.

Definition validate_string_length (value field_name : string) (max_length : nat) : M string :=
  if longer_than value max_length
  then raise (ValidatorsValidationError
                (field_name +:+ " must be <= " +:+ pretty max_length +:+ " characters"))
  else mret value.

Definition name_char (c : ascii) : bool :=
  let n := nat_of_ascii c in
  (Nat.leb 97 n && Nat.leb n 122) || (Nat.leb 65 n && Nat.leb n 90)
  || (Nat.leb 48 n && Nat.leb n 57) || Nat.eqb n 95 || Nat.eqb n 45.

(** [re.match(r'^[a-zA-Z0-9_-]+$', s)]: [$] also matches just before a
    final newline. *)
Fixpoint match_name (s : string) : bool :=
  match s with
  | EmptyString => false
  | String c r =>
      name_char c &&
      match r with
      | EmptyString => true
      | String "010"%char EmptyString => true
      | _ => match_name r
      end
  end.

Definition validate_name (name field_name : string) : M string :=
  name ← validate_required_field (Some name) field_name;
  name ← validate_string_length name field_name MAX_NAME_LENGTH;
  if negb (match_name name)
  then raise (ValidatorsValidationError
                (field_name +:+ " can only contain letters, numbers, hyphens, and underscores"))
  else mret name.

Definition validate_display_name (display_name field_name : string) (is_update : bool)
  : M string :=
  if truthy display_name then
    let display_name := strip display_name in
    let max_length :=
      if is_update then MAX_DISPLAY_NAME_UPDATE_LENGTH else MAX_DISPLAY_NAME_LENGTH in
    validate_string_length display_name field_name max_length
  else mret "".

Definition validate_uuid (uuid_str : option string) (field_name : string) : M string :=
  uuid_str ← validate_required_field uuid_str field_name;
  if uuid_ok uuid_str then mret uuid_str
  else raise (ValidatorsValidationError (field_name +:+ " must be a valid UUID")).

(** [_check_name_uniqueness(users, name)] with [exclude_id=None]: no
    stored id equals [None]. *)
Definition _check_name_uniqueness (users : list user) (name : string) : M unit :=
  match List.find (fun u => String.eqb (u_name u) name) users with
  | Some _ => raise (DuplicateResourceError "User name must be unique")
  | None => mret tt
  end.

Record create_user_request : Type := mk_create_user_request {
  cu_name : string;
  cu_display_name : string
}.

Definition create_user (fresh now : string) (req : create_user_request) : M string :=
  try_except
    (name ← validate_name (cu_name req) "User name";
     display_name ← validate_display_name (cu_display_name req) "Display name" false;
     users ← load_users;
     _check_name_uniqueness users name;;
     let new_user :=
       mk_user fresh name (if truthy display_name then display_name else name) now in
     save_users (users ++ [new_user]);;
     mret fresh)
    (fun e =>
       match e with
       | ValidationError _ | DuplicateResourceError _ => raise e
       | _ => raise (ValidationError "Failed to create user")
       end).

Record user_fields : Type := mk_user_fields {
  uf_name : string;
  uf_display_name : string
}.

Record update_user_request : Type := mk_update_user_request {
  uu_id : string;
  uu_user : user_fields
}.

Definition set_display_name (d : string) (u : user) : user :=
  mk_user (u_id u) (u_name u) d (u_creation_time u).

(** [next((i for i, u in enumerate(users) if u["id"] == user_id), None)] *)
Definition user_index (user_id : string) (users : list user) : option nat :=
  find_index (fun u => String.eqb (u_id u) user_id) users.

Definition update_user (req : update_user_request) : M unit :=
  try_except
    (user_id ← validate_uuid (Some (uu_id req)) "User ID";
     let name := strip (uf_name (uu_user req)) in
     display_name ← validate_display_name (uf_display_name (uu_user req)) "Display name" true;
     users ← load_users;
     match user_index user_id users with
     | None => raise (ResourceNotFoundError "User not found")
     | Some user_index =>
       if truthy name &&
          negb (String.eqb name (default "" (u_name <$> users !! user_index)))
       then raise (ValidationError "User name cannot be updated") else
       let users :=
         if truthy display_name
         then alter (set_display_name display_name) user_index users else users in
       save_users users
     end)
    (fun e =>
       match e with
       | ValidationError _ | ResourceNotFoundError _ => raise e
       | _ => raise (ValidationError "Failed to update user")
       end).

(** The fields that [list_users] and [describe_user] return. *)
Record user_info : Type := mk_user_info {
  ui_name : string;
  ui_display_name : string;
  ui_creation_time : string
}.

Definition user_info_of (u : user) : user_info :=
  mk_user_info (u_name u) (u_display_name u) (u_creation_time u).

Definition _find_user_by_id (users : list user) (user_id : string) : M user :=
  match List.find (fun u => String.eqb (u_id u) user_id) users with
  | None => raise (ResourceNotFoundError ("User with ID " +:+ user_id +:+ " not found"))
  | Some user => mret user
  end.

Definition list_users : M (list user_info) :=
  try_except
    (users ← load_users;
     mret (user_info_of <$> users))
    (fun _ => raise (ValidationError "Failed to retrieve users")).

Definition describe_user (id : string) : M user_info :=
  try_except
    (user_id ← validate_uuid (Some id) "User ID";
     users ← load_users;
     user ← _find_user_by_id users user_id;
     mret (user_info_of user))
    (fun e =>
       match e with
       | ValidationError _ | ResourceNotFoundError _ => raise e
       | _ => raise (ValidationError "Failed to retrieve user details")
       end).

(** The entries of [get_user_teams]: name, description, creation time. *)
Definition get_user_teams (id : string) : M (list (string * string * string)) :=
  try_except
    (user_id ← validate_uuid (Some id) "User ID";
     users ← load_users;
     _find_user_by_id users user_id;;
     teams ← load_teams;
     let user_teams := filter (fun t => user_id ∈ t_members t) teams in
     mret ((fun t => (t_name t, t_description t, t_creation_time t)) <$> user_teams))
    (fun e =>
       match e with
       | ValidationError _ | ResourceNotFoundError _ => raise e
       | _ => raise (ValidationError "Failed to retrieve user teams")
       end).

End WithUuid.

End User.

(** ** The system: every operation that writes to the store *)

Inductive op : Type :=
  | CreateUser (fresh now : string) (req : User.create_user_request)
  | UpdateUser (req : User.update_user_request)
  | CreateTeam (fresh now : string) (req : Teams.create_team_request)
  | UpdateTeam (req : Teams.update_team_request)
  | AddUsersToTeam (req : Teams.users_request)
  | RemoveUsersFromTeam (req : Teams.users_request)
  | CreateBoard (fresh now : string) (req : ProjectBoard.create_board_request)
  | CloseBoard (now : string) (id : option string)
  | AddTask (fresh now : string) (req : ProjectBoard.add_task_request)
  | UpdateTaskStatus (req : ProjectBoard.update_task_status_request).

Section System.

Variable uuid_ok : string -> bool.

(** The store after one call, whether it returned or raised. *)
Definition exec (o : op) (s : db) : db :=
  match o with
  | CreateUser fresh now req => (User.create_user fresh now req s).2
  | UpdateUser req => (User.update_user uuid_ok req s).2
  | CreateTeam fresh now req => (Teams.create_team fresh now req s).2
  | UpdateTeam req => (Teams.update_team req s).2
  | AddUsersToTeam req => (Teams.add_users_to_team req s).2
  | RemoveUsersFromTeam req => (Teams.remove_users_from_team req s).2
  | CreateBoard fresh now req => (ProjectBoard.create_board fresh now req s).2
  | CloseBoard now id => (ProjectBoard.close_board now id s).2
  | AddTask fresh now req => (ProjectBoard.add_task fresh now req s).2
  | UpdateTaskStatus req => (ProjectBoard.update_task_status req s).2
  end.

(** [run ops s]: the calls of [ops] one after the other, from the left. *)
Definition run (ops : list op) (s : db) : db := foldl (fun s o => exec o s) s ops.

(** The states the service can be in: those that calls lead to from the
    empty store. *)
Inductive reachable : db -> Prop :=
  | reachable_empty : reachable empty_db
  | reachable_exec (o : op) (s : db) : reachable s -> reachable (exec o s).

End System.

(** ** concrete/views.py *)

(** [BaseAPIView.dispatch]: the status of the response.  A handler that
    returns answers with its own status; [ValueError] is answered with
    400 and every other exception with 500. *)
Definition dispatch {A : Type} (r : outcome A) (status : nat) : nat :=
  match r with
  | Return _ => status
  | Raise (ValueError _) => 400
  | Raise _ => 500
  end.

(** The operations that only read the store, one for each of the other
    views. *)
Inductive query : Type :=
  | ListUsers
  | DescribeUser (id : string)
  | GetUserTeams (id : string)
  | ListTeams
  | DescribeTeam (id : option string)
  | ListTeamUsers (id : option string)
  | ListBoards (id : option string)
  | ExportBoard (now : string) (id : option string).

(** The response to a call of [export_board]: the [KeyError] of its
    counting loop is no [ValueError]. *)
Definition export_status (r : ProjectBoard.export_result) : nat :=
  match r with
  | ProjectBoard.Exported _ _ => 200
  | ProjectBoard.ExportValueError _ => 400
  | ProjectBoard.ExportKeyError _ => 500
  end.

Section Views.

Variable uuid_ok : string -> bool.

(** The status with which the view of each operation answers: the
    [Create] views return 201, the others the default 200. *)
Definition response_status (o : op) (s : db) : nat :=
  match o with
  | CreateUser fresh now req => dispatch (User.create_user fresh now req s).1 201
  | UpdateUser req => dispatch (User.update_user uuid_ok req s).1 200
  | CreateTeam fresh now req => dispatch (Teams.create_team fresh now req s).1 201
  | UpdateTeam req => dispatch (Teams.update_team req s).1 200
  | AddUsersToTeam req => dispatch (Teams.add_users_to_team req s).1 200
  | RemoveUsersFromTeam req => dispatch (Teams.remove_users_from_team req s).1 200
  | CreateBoard fresh now req => dispatch (ProjectBoard.create_board fresh now req s).1 201
  | CloseBoard now id => dispatch (ProjectBoard.close_board now id s).1 200
  | AddTask fresh now req => dispatch (ProjectBoard.add_task fresh now req s).1 201
  | UpdateTaskStatus req => dispatch (ProjectBoard.update_task_status req s).1 200
  end.

(** The exception a call ends with, if any. *)
Definition failure {A : Type} (r : outcome A) : option exn :=
  match r with
  | Return _ => None
  | Raise e => Some e
  end.

Definition exec_failure (o : op) (s : db) : option exn :=
  match o with
  | CreateUser fresh now req => failure (User.create_user fresh now req s).1
  | UpdateUser req => failure (User.update_user uuid_ok req s).1
  | CreateTeam fresh now req => failure (Teams.create_team fresh now req s).1
  | UpdateTeam req => failure (Teams.update_team req s).1
  | AddUsersToTeam req => failure (Teams.add_users_to_team req s).1
  | RemoveUsersFromTeam req => failure (Teams.remove_users_from_team req s).1
  | CreateBoard fresh now req => failure (ProjectBoard.create_board fresh now req s).1
  | CloseBoard now id => failure (ProjectBoard.close_board now id s).1
  | AddTask fresh now req => failure (ProjectBoard.add_task fresh now req s).1
  | UpdateTaskStatus req => failure (ProjectBoard.update_task_status req s).1
  end.

(** The status with which the view of each reading operation answers. *)
Definition query_status (q : query) (s : db) : nat :=
  match q with
  | ListUsers => dispatch (User.list_users s).1 200
  | DescribeUser id => dispatch (User.describe_user uuid_ok id s).1 200
  | GetUserTeams id => dispatch (User.get_user_teams uuid_ok id s).1 200
  | ListTeams => dispatch (Teams.list_teams s).1 200
  | DescribeTeam id => dispatch (Teams.describe_team id s).1 200
  | ListTeamUsers id => dispatch (Teams.list_team_users id s).1 200
  | ListBoards id => dispatch (ProjectBoard.list_boards id s).1 200
  | ExportBoard now id => export_status (ProjectBoard.export_board now id s)
  end.

End Views.

(** The operations of [user.py], and those of [teams.py] and [board.py]. *)
Definition is_user_op (o : op) : bool :=
  match o with
  | CreateUser _ _ _ | UpdateUser _ => true
  | _ => false
  end.

Definition is_user_query (q : query) : bool :=
  match q with
  | ListUsers | DescribeUser _ | GetUserTeams _ => true
  | _ => false
  end.

(** The error of the last [except] clause of [create_user] and
    [update_user].  It stands for every exception that is none of the
    three of [utils/exceptions.py]: the failures of
    [utils/validators.py], and a write of [users.json] that fails. *)
Definition unexpected (e : exn) : bool :=
  match e with
  | ValidationError msg =>
      String.eqb msg "Failed to create user" || String.eqb msg "Failed to update user"
  | _ => false
  end.

(** A team is well formed when its admin is one of its members and its
    member list repeats no id. *)
Definition team_ok (t : team) : Prop :=
  t_admin t ∈ t_members t ∧ NoDup (t_members t).

(** The team that [update_team] stores in place of [t] for the stripped
    fields [name], [description] and [admin] of the request: a field that
    is empty keeps the stored value, and a new admin that is no member
    yet is put at the end of the member list. *)
Definition updated_team (name description admin : string) (t : team) : team :=
  mk_team (t_id t)
          (if truthy name then name else t_name t)
          (if truthy description then description else t_description t)
          (if truthy admin then admin else t_admin t)
          (if truthy admin && negb (elem_str admin (t_members t))
           then t_members t ++ [admin] else t_members t)
          (t_creation_time t).

(** A stored user has a name of 1 to 64 letters, digits, hyphens and
    underscores, and a display name that is not empty. *)
Definition user_ok (u : user) : Prop :=
  (Forall (fun c => User.name_char c = true) (String.list_ascii_of_string (u_name u))
   ∧ u_name u ≠ "")
  ∧ String.length (u_name u) <= 64
  ∧ u_display_name u ≠ "".

(** A board is OPEN and has no end time, or CLOSED and has one. *)
Definition board_ok (b : board) : Prop :=
  (b_status b = "OPEN" ∧ b_end_time b = None)
  ∨ (b_status b = "CLOSED" ∧ is_Some (b_end_time b)).

(** The team and the name of a board; the board and the title of a task. *)
Definition board_key (b : board) : string * string := (b_team_id b, b_name b).
Definition task_key (t : task) : string * string := (k_board_id t, k_title t).

(** The ids a record of one collection holds of records of another: the
    members and the admin of a team are users, the team of a board is a
    team, the board of a task is a board. *)
Definition refs_ok (s : db) : Prop :=
  Forall (fun t => Forall (fun m => Teams.user_exists m (users s) = true)
                          (t_admin t :: t_members t)) (teams s)
  ∧ Forall (fun b => b_team_id b ∈ t_id <$> teams s) (boards s)
  ∧ Forall (fun t => k_board_id t ∈ b_id <$> boards s) (tasks s).

(** ** A small run of the service, used in the examples below *)

Definition hex_digit (c : ascii) : bool :=
  let n := nat_of_ascii c in
  (Nat.leb 48 n && Nat.leb n 57) || (Nat.leb 97 n && Nat.leb n 102)
  || (Nat.leb 65 n && Nat.leb n 70).

(** The canonical 8-4-4-4-12 form, which [uuid.UUID] accepts; it stands
    for [uuid_ok] in the examples. *)
Definition canonical_uuid (s : string) : bool :=
  let l := String.list_ascii_of_string s in
  Nat.eqb (length l) 36 &&
  forallb (fun ic : nat * ascii =>
             if bool_decide (ic.1 ∈ [8; 13; 18; 23])
             then Ascii.eqb ic.2 "-" else hex_digit ic.2)
          (imap pair l).

Definition U1 : string := "11111111-1111-4111-8111-111111111111".
Definition U2 : string := "22222222-2222-4222-8222-222222222222".
Definition T1 : string := "aaaaaaaa-0000-4000-8000-000000000001".
Definition T2 : string := "aaaaaaaa-0000-4000-8000-000000000002".
Definition B1 : string := "bbbbbbbb-0000-4000-8000-000000000001".
Definition B2 : string := "bbbbbbbb-0000-4000-8000-000000000002".
Definition K1 : string := "cccccccc-0000-4000-8000-000000000001".
Definition K2 : string := "cccccccc-0000-4000-8000-000000000002".

(** Two users, two teams, the boards "Sprint" and "Done" of the first
    team, one task on "Sprint"; "Done" has no task and is closed. *)
Definition demo_ops : list op :=
  [ CreateUser U1 "2025-01-01T09:00:00" (User.mk_create_user_request "alice" "");
    CreateUser U2 "2025-01-01T09:01:00" (User.mk_create_user_request "bob" "Bob");
    CreateTeam T1 "2025-01-01T09:02:00" (Teams.mk_create_team_request "dev" "Developers" U1);
    CreateTeam T2 "2025-01-01T09:03:00" (Teams.mk_create_team_request "qa" "Testers" U2);
    AddUsersToTeam (Teams.mk_users_request (Some T1) [U2; U2]);
    CreateBoard B1 "2025-01-01T09:04:00"
      (ProjectBoard.mk_create_board_request "Sprint" "" T1 None);
    CreateBoard B2 "2025-01-01T09:05:00"
      (ProjectBoard.mk_create_board_request "Done" "" T1 None);
    AddTask K1 "2025-01-01T09:06:00"
      (ProjectBoard.mk_add_task_request "t1" "" U1 None (Some B1));
    CloseBoard "2025-01-01T09:07:00" (Some B2) ].

Definition demo_db : db := run canonical_uuid demo_ops empty_db.

(** A task for "Sprint" whose [user_id] is the id of no user. *)
Definition ghost_request : ProjectBoard.add_task_request :=
  ProjectBoard.mk_add_task_request "t2" "" "no-such-user" None (Some B1).


(** [demo_db] with a second task on "Sprint": the first task is then
    IN_PROGRESS and the second one COMPLETE. *)
Definition two_tasks_db : db :=
  run canonical_uuid
    [ AddTask K2 "2025-01-01T09:08:00"
        (ProjectBoard.mk_add_task_request "t2" "" U2 None (Some B1));
      UpdateTaskStatus
        (ProjectBoard.mk_update_task_status_request (Some K1) (Some "IN_PROGRESS"));
      UpdateTaskStatus
        (ProjectBoard.mk_update_task_status_request (Some K2) (Some "COMPLETE")) ]
    demo_db.

(** A store with 51 users and one team that already has 50 members. *)
Definition nth_id (n : nat) : string := String (ascii_of_nat (48 + n)) "".

Definition crowd_db : db :=
  mk_db ((fun n => mk_user (nth_id n) (nth_id n) (nth_id n) "2025-01-01T09:00:00") <$> seq 0 51)
        [mk_team T1 "dev" "" (nth_id 0) (nth_id <$> seq 0 50) "2025-01-01T09:02:00"]
        [] [].

(** * Proofs *)

(** ** Generic facts *)

Ltac unfold_monad :=
  cbv [mbind mret M_bind M_ret raise try_except required
       load_users load_teams load_boards load_tasks
       save_users save_teams save_boards save_tasks].

(** Case analysis on every test a computation makes. *)
Ltac branches :=
  repeat (simpl;
          match goal with
          | |- context [match ?x with _ => _ end] =>
              lazymatch x with
              | context [match _ with _ => _ end] => fail
              | _ => destruct x eqn:?
              end
          end);
  simpl.

(** Discharges a bounded quantification over a concrete list. *)
Ltac by_cases_on_list H :=
  apply list_elem_of_In in H; vm_compute in H;
  repeat (destruct H as [<-|H]; [vm_compute; first [reflexivity | discriminate]|]);
  destruct H.

Lemma existsb_false_iff {A : Type} (p : A -> bool) (l : list A) :
  existsb p l = false ↔ ∀ x, x ∈ l -> p x = false.
Proof.
  split.
  - intros H x Hx. destruct (p x) eqn:E; [|done].
    assert (existsb p l = true) as H'; [|congruence].
    apply existsb_exists. exists x. split; [by apply list_elem_of_In | done].
  - intros H. destruct (existsb p l) eqn:E; [|done].
    apply existsb_exists in E as (x & Hx%list_elem_of_In & Hp).
    by rewrite (H x Hx) in Hp.
Qed.

Lemma existsb_true_iff {A : Type} (p : A -> bool) (l : list A) :
  existsb p l = true ↔ ∃ x, x ∈ l ∧ p x = true.
Proof.
  rewrite existsb_exists. by setoid_rewrite list_elem_of_In.
Qed.

Lemma truthy_spec (s : string) : truthy s = true ↔ s ≠ "".
Proof.
  unfold truthy. destruct (String.eqb_spec s ""); simpl; split; congruence.
Qed.

Lemma elem_str_spec (x : string) (l : list string) : elem_str x l = true ↔ x ∈ l.
Proof.
  unfold elem_str. rewrite existsb_exists. split.
  - intros (y & Hy & Heq). apply String.eqb_eq in Heq. subst.
    by apply list_elem_of_In.
  - intros Hx. exists x. split; [by apply list_elem_of_In | apply String.eqb_refl].
Qed.

Lemma elem_str_false (x : string) (l : list string) : elem_str x l = false ↔ x ∉ l.
Proof.
  rewrite <- elem_str_spec. destruct (elem_str x l); split; congruence.
Qed.

(** ** Facts on [rstrip], the name pattern and list positions *)

Lemma rstrip_idem (s : string) : rstrip (rstrip s) = rstrip s.
Proof.
  induction s as [|c r IH]; [done|]. simpl.
  destruct (rstrip r) as [|c' r'] eqn:Hr.
  - destruct (isspace c) eqn:Hc; [done|]. simpl. by rewrite Hc.
  - change (rstrip (String c (String c' r')) = String c (String c' r')).
    change (rstrip (String c (String c' r')))
      with (match rstrip (String c' r') with
            | EmptyString => if isspace c then EmptyString else String c EmptyString
            | x => String c x
            end).
    by rewrite IH.
Qed.

Lemma rstrip_fixed_tail (c : ascii) (r : string) :
  r ≠ "" -> rstrip (String c r) = String c r -> rstrip r = r.
Proof.
  intros Hne H. simpl in H. destruct (rstrip r) as [|c' r'] eqn:Hr.
  - destruct (isspace c); [discriminate|]. injection H as <-. done.
  - by injection H.
Qed.

Lemma match_name_fixed (s : string) :
  User.match_name s = true -> rstrip s = s ->
  Forall (fun c => User.name_char c = true) (String.list_ascii_of_string s).
Proof.
  induction s as [|c r IH]; [done|]. intros Hm Hfix.
  change (User.match_name (String c r))
    with (User.name_char c &&
          match r with
          | EmptyString => true
          | String "010"%char EmptyString => true
          | _ => User.match_name r
          end) in Hm.
  apply andb_true_iff in Hm as [Hc Hm].
  change (String.list_ascii_of_string (String c r)) with (c :: String.list_ascii_of_string r).
  constructor; [done|].
  destruct r as [|c' r']; [constructor|].
  assert (rstrip (String c' r') = String c' r') as Hr by (by apply (rstrip_fixed_tail c)).
  apply IH; [|done].
  destruct (Ascii.eqb c' "010") eqn:Hnl.
  - apply Ascii.eqb_eq in Hnl. subst c'. destruct r' as [|c'' r'']; [|done].
    vm_compute in Hr. discriminate.
  - assert (c' ≠ "010"%char) as Hc' by (by apply Ascii.eqb_neq).
    destruct c' as [[] [] [] [] [] [] [] []]; try done.
Qed.

Lemma match_name_chars (v : string) :
  User.match_name (strip v) = true ->
  Forall (fun c => User.name_char c = true) (String.list_ascii_of_string (strip v)).
Proof. intros H. apply match_name_fixed; [done|]. apply rstrip_idem. Qed.

Lemma find_index_app {A : Type} (p : A -> bool) (before : list A) (x : A) (after : list A) :
  (∀ y, y ∈ before -> p y = false) -> p x = true ->
  find_index p (before ++ x :: after)%list = Some (length before).
Proof.
  intros Hb Hx. induction before as [|y l IH]; simpl.
  - by rewrite Hx.
  - rewrite (Hb y) by apply list_elem_of_here. rewrite IH; [done|].
    intros z Hz. apply Hb. by apply list_elem_of_further.
Qed.

Lemma find_index_None {A : Type} (p : A -> bool) (l : list A) :
  (∀ y, y ∈ l -> p y = false) -> find_index p l = None.
Proof.
  induction l as [|y l IH]; [done|]. intros H. simpl.
  rewrite (H y) by apply list_elem_of_here. rewrite IH; [done|].
  intros z Hz. apply H. by apply list_elem_of_further.
Qed.

Lemma alter_middle {A : Type} (f : A -> A) (before : list A) (x : A) (after : list A) :
  alter f (length before) (before ++ x :: after)%list = (before ++ f x :: after)%list.
Proof. induction before as [|y l IH]; simpl; [done|]. f_equal. exact IH. Qed.

Lemma fmap_alter_same {A B : Type} (f : A -> B) (g : A -> A) (i : nat) (l : list A) :
  (∀ x, f (g x) = f x) -> f <$> alter g i l = f <$> l.
Proof.
  intros H. apply list_eq. intros j. rewrite !list_lookup_fmap.
  destruct (decide (i = j)) as [->|Hne].
  - rewrite list_lookup_alter_eq. destruct (l !! j); simpl; by rewrite ?H.
  - by rewrite list_lookup_alter_ne.
Qed.

(** ** Team well-formedness is kept by every operation *)

Section TeamInvariant.

Import Teams.

Lemma create_team_team_ok fresh now req s :
  Forall team_ok (teams s) -> Forall team_ok (teams (create_team fresh now req s).2).
Proof.
  intros H. unfold create_team. unfold_monad. branches; try done.
  apply Forall_app. split; [done|].
  apply Forall_singleton. split; simpl.
  - apply list_elem_of_singleton. done.
  - apply NoDup_singleton.
Qed.

(** [update_team] puts the new admin among the members when it is not
    there yet. *)
Lemma ensure_member_ok admin t :
  NoDup (t_members t) ->
  let t' := if elem_str admin (t_members t) then t
            else set_members (t_members t ++ [admin]) t in
  admin ∈ t_members t' ∧ NoDup (t_members t').
Proof.
  intros Hnd. simpl. destruct (elem_str admin (t_members t)) eqn:E; simpl.
  - split; [by apply elem_str_spec | done].
  - apply elem_str_false in E. split.
    + apply elem_of_app. right. by apply list_elem_of_singleton.
    + apply NoDup_app. repeat split; [done| |apply NoDup_singleton].
      by intros x Hx ->%list_elem_of_singleton.
Qed.

Lemma update_team_team_ok req s :
  Forall team_ok (teams s) -> Forall team_ok (teams (update_team req s).2).
Proof.
  intros H. unfold update_team. unfold_monad. branches; try done.
  all: rewrite ?list_alter_alter_eq; apply Forall_alter; try done.
  all: intros t _ [Hadm Hnd]; unfold team_ok, compose; simpl.
  all: try done.
  all: apply ensure_member_ok, Hnd.
Qed.

Lemma add_users_to_team_team_ok req s :
  Forall team_ok (teams s) -> Forall team_ok (teams (add_users_to_team req s).2).
Proof.
  intros H. unfold add_users_to_team, members_at. unfold_monad. branches; try done.
  apply Forall_alter; [done|].
  intros t Ht [Hadm _]. rewrite Ht. split; simpl.
  - apply elem_of_elements, elem_of_union. left. by apply elem_of_list_to_set.
  - apply NoDup_elements.
Qed.

Lemma remove_users_from_team_team_ok req s :
  Forall team_ok (teams s) -> Forall team_ok (teams (remove_users_from_team req s).2).
Proof.
  intros H. unfold remove_users_from_team, members_at. unfold_monad. branches; try done.
  apply Forall_alter; [done|].
  intros t Ht [Hadm _].
  match goal with E : elem_str _ _ = false |- _ => rewrite Ht in E; simpl in E;
    apply elem_str_false in E; rename E into Hnot end.
  rewrite Ht. split; simpl.
  - apply elem_of_elements, elem_of_difference. split.
    + by apply elem_of_list_to_set.
    + by rewrite elem_of_list_to_set.
  - apply NoDup_elements.
Qed.

(** The other managers never write the team collection. *)
Lemma create_user_teams fresh now req s :
  teams (User.create_user fresh now req s).2 = teams s.
Proof.
  unfold User.create_user, User.validate_name, User.validate_display_name,
    User.validate_required_field, User.validate_string_length,
    User._check_name_uniqueness.
  unfold_monad. branches; done.
Qed.

Lemma update_user_teams uuid_ok req s :
  teams (User.update_user uuid_ok req s).2 = teams s.
Proof.
  unfold User.update_user, User.validate_uuid, User.validate_display_name,
    User.validate_required_field, User.validate_string_length.
  unfold_monad. branches; done.
Qed.

Lemma create_board_teams fresh now req s :
  teams (ProjectBoard.create_board fresh now req s).2 = teams s.
Proof. unfold ProjectBoard.create_board. unfold_monad. branches; done. Qed.

Lemma close_board_teams now id s :
  teams (ProjectBoard.close_board now id s).2 = teams s.
Proof. unfold ProjectBoard.close_board. unfold_monad. branches; done. Qed.

Lemma add_task_teams fresh now req s :
  teams (ProjectBoard.add_task fresh now req s).2 = teams s.
Proof.
  unfold ProjectBoard.add_task, ProjectBoard.resolve_board, ProjectBoard.find_board.
  unfold_monad. branches; done.
Qed.

Lemma update_task_status_teams req s :
  teams (ProjectBoard.update_task_status req s).2 = teams s.
Proof. unfold ProjectBoard.update_task_status. unfold_monad. branches; done. Qed.

Lemma exec_team_ok uuid_ok o s :
  Forall team_ok (teams s) -> Forall team_ok (teams (exec uuid_ok o s)).
Proof.
  intros H. destruct o; simpl.
  - by rewrite create_user_teams.
  - by rewrite update_user_teams.
  - by apply create_team_team_ok.
  - by apply update_team_team_ok.
  - by apply add_users_to_team_team_ok.
  - by apply remove_users_from_team_team_ok.
  - by rewrite create_board_teams.
  - by rewrite close_board_teams.
  - by rewrite add_task_teams.
  - by rewrite update_task_status_teams.
Qed.

Lemma reachable_team_ok uuid_ok s :
  reachable uuid_ok s -> Forall team_ok (teams s).
Proof.
  induction 1 as [|o s _ IH]; [constructor | by apply exec_team_ok].
Qed.

Lemma reachable_run uuid_ok ops s :
  reachable uuid_ok s -> reachable uuid_ok (run uuid_ok ops s).
Proof.
  revert s. induction ops as [|o ops IH]; intros s Hs; simpl; [done|].
  apply IH. by constructor.
Qed.

End TeamInvariant.

(** ** AddTask and the user store (C1) *)

Section AddTask.

Import ProjectBoard.

(** C1, as the code has it.  [add_task] checks that [user_id] is not
    empty and never reads the user collection: when title, description
    and [user_id] pass the checks, the board resolves and the title is new
    on that board, the call returns and stores the task with that
    [user_id], whatever the user collection holds; with an empty
    [user_id] the call raises and stores nothing. *)
Theorem add_task_ignores_user_store fresh now req s board :
  let title := strip (at_title req) in
  let description := strip (at_description req) in
  let user_id := strip (at_user_id req) in
  (user_id = "" -> ∃ msg, add_task fresh now req s = (Raise (ValueError msg), s))
  ∧ (title ≠ "" -> String.length title <= 64 -> String.length description <= 128 ->
     user_id ≠ "" ->
     resolve_board (at_board_id req) (boards s) s = (Return board, s) ->
     (∀ t, t ∈ tasks s -> k_board_id t = b_id board -> k_title t ≠ title) ->
     add_task fresh now req s =
       (Return fresh,
        mk_db (users s) (teams s) (boards s)
              (tasks s ++ [mk_task fresh title description user_id (b_id board)
                                   (time_or_now (at_creation_time req) now) "OPEN"]))).
Proof.
  intros title description user_id. split.
  - intros Hu. unfold add_task. fold title description user_id. rewrite Hu.
    unfold_monad. branches; by eexists.
  - intros Ht Hlt Hld Hu Hb Hnew. unfold add_task. fold title description user_id.
    apply truthy_spec in Ht. apply truthy_spec in Hu. rewrite Ht, Hu. simpl.
    unfold longer_than.
    destruct (Nat.ltb_spec 64 (String.length title)) as [?|_]; [lia|].
    destruct (Nat.ltb_spec 128 (String.length description)) as [?|_]; [lia|].
    rewrite andb_false_r. unfold_monad. simpl.
    rewrite Hb.
    assert (existsb (fun t => String.eqb (k_title t) title)
              (board_tasks (b_id board) (tasks s)) = false) as ->; [|done].
    apply existsb_false_iff. intros t [Hb' Hin]%list_elem_of_filter.
    apply String.eqb_neq. by apply Hnew.
Qed.

(** C1 fails as stated: in [demo_db] no user has the id "no-such-user",
    and [add_task] with that [user_id] returns and stores the task. *)
Lemma add_task_unknown_user_counterexample :
  ¬ (∀ fresh now req s,
       existsb (fun u => String.eqb (u_id u) (strip (at_user_id req))) (users s) = false ->
       ∃ e, add_task fresh now req s = (Raise e, s)).
Proof.
  intros H.
  destruct (H K2 "2025-01-01T10:00:00" ghost_request demo_db) as [e He].
  - vm_compute. reflexivity.
  - vm_compute in He. discriminate He.
Qed.

Lemma add_task_ignores_user_store_witness :
  existsb (fun u => String.eqb (u_id u) "no-such-user") (users demo_db) = false
  ∧ add_task K2 "2025-01-01T10:00:00" ghost_request demo_db =
      (Return K2,
       mk_db (users demo_db) (teams demo_db) (boards demo_db)
             (tasks demo_db ++
                [mk_task K2 "t2" "" "no-such-user" B1 "2025-01-01T10:00:00" "OPEN"])).
Proof.
  split; [vm_compute; reflexivity|].
  apply (proj2 (add_task_ignores_user_store K2 "2025-01-01T10:00:00" ghost_request demo_db
                  (mk_board B1 "Sprint" "" T1 "2025-01-01T09:04:00" "OPEN" None))).
  - vm_compute. discriminate.
  - vm_compute. lia.
  - vm_compute. lia.
  - vm_compute. discriminate.
  - vm_compute. reflexivity.
  - intros t Ht _. by_cases_on_list Ht.
Defined.

End AddTask.

(** ** CreateTeam (C2) *)

Section CreateTeam.

Import Teams.

(** C2, as the code has it.  A [create_team] call whose name is that of
    a stored team raises the builtin [ValueError], the exception of every
    other rejected request of [teams.py] (with the message "Team name
    must be unique" when the checks before it pass), and leaves the store
    as it was; [teams.py] raises no [DuplicateResourceError].  A call
    that returns has stored a team whose member list is [[admin]]. *)
Theorem create_team_duplicate_name fresh now req s :
  let name := strip (ct_name req) in
  let description := strip (ct_description req) in
  let admin := strip (ct_admin req) in
  ((∃ t, t ∈ teams s ∧ t_name t = name) ->
     (∃ msg, create_team fresh now req s = (Raise (ValueError msg), s))
     ∧ (name ≠ "" -> String.length name <= 64 -> String.length description <= 128 ->
        admin ≠ "" -> user_exists admin (users s) = true ->
        create_team fresh now req s = (Raise (ValueError "Team name must be unique"), s)))
  ∧ (∀ id s', create_team fresh now req s = (Return id, s') ->
       id = fresh ∧
       s' = mk_db (users s)
                  (teams s ++ [mk_team fresh name description admin [admin] now])
                  (boards s) (tasks s)).
Proof.
  intros name description admin. split.
  - intros (t & Ht & Hname).
    assert (existsb (fun t => String.eqb (t_name t) name) (teams s) = true) as Hdup.
    { apply existsb_true_iff. exists t. split; [done|]. by apply String.eqb_eq. }
    split.
    + unfold create_team. fold name description admin. unfold_monad.
      branches; try congruence; by eexists.
    + intros Hn Hln Hld Ha Hu. unfold create_team. fold name description admin.
      apply truthy_spec in Hn. apply truthy_spec in Ha. rewrite Hn, Ha. simpl.
      unfold longer_than.
      destruct (Nat.ltb_spec 64 (String.length name)) as [?|_]; [lia|].
      destruct (Nat.ltb_spec 128 (String.length description)) as [?|_]; [lia|].
      unfold_monad. simpl. rewrite Hu. simpl. by rewrite Hdup.
  - intros id s'. unfold create_team. fold name description admin. unfold_monad.
    branches; intros [= <- <-]; done.
Qed.

(** C2 fails as stated: "dev" is the name of a team of [demo_db], and
    [create_team] with that name raises [ValueError]. *)
Lemma create_team_duplicate_counterexample :
  ¬ (∀ fresh now req s,
       (∃ t, t ∈ teams s ∧ t_name t = strip (ct_name req)) ->
       ∃ e, (create_team fresh now req s).1 = Raise e ∧ is_DuplicateResourceError e = true).
Proof.
  intros H.
  destruct (H T2 "2025-01-01T10:00:00" (mk_create_team_request "dev" "" U2) demo_db)
    as (e & He & Hdup).
  - exists (mk_team T1 "dev" "Developers" U1 [U1; U2] "2025-01-01T09:02:00").
    split; [apply list_elem_of_lookup; exists 0; vm_compute; reflexivity|].
    vm_compute. reflexivity.
  - vm_compute in He. injection He as <-. discriminate Hdup.
Qed.

Lemma create_team_duplicate_name_witness :
  create_team "aaaaaaaa-0000-4000-8000-000000000003" "2025-01-01T10:00:00"
    (mk_create_team_request " dev " "" U2) demo_db
  = (Raise (ValueError "Team name must be unique"), demo_db)
  ∧ ∃ s', create_team "aaaaaaaa-0000-4000-8000-000000000003" "2025-01-01T10:00:00"
            (mk_create_team_request "ops" "" U2) demo_db
          = (Return "aaaaaaaa-0000-4000-8000-000000000003", s')
          ∧ t_members <$> teams s' = [[U1; U2]; [U2]; [U2]].
Proof.
  split.
  - apply (proj1 (create_team_duplicate_name _ _ _ _)).
    + exists (mk_team T1 "dev" "Developers" U1 [U1; U2] "2025-01-01T09:02:00").
      split; [apply list_elem_of_lookup; exists 0; vm_compute; reflexivity|].
      vm_compute. reflexivity.
    + vm_compute. discriminate.
    + vm_compute. lia.
    + vm_compute. lia.
    + vm_compute. discriminate.
    + vm_compute. reflexivity.
  - eexists. split; [vm_compute; reflexivity|].
    vm_compute. reflexivity.
Defined.

End CreateTeam.

(** ** Team invariants (C3, C10) *)

Section TeamClaims.

Variable uuid_ok : string -> bool.

(** C3.  In every state the service reaches, and so after every call of
    [create_team], [update_team], [add_users_to_team] and
    [remove_users_from_team] made in such a state, the admin of each team
    is one of its members. *)
Theorem admin_is_member s :
  reachable uuid_ok s ->
  (∀ t, t ∈ teams s -> t_admin t ∈ t_members t)
  ∧ (∀ o t, t ∈ teams (exec uuid_ok o s) -> t_admin t ∈ t_members t).
Proof.
  intros Hs. split.
  - intros t Ht. apply reachable_team_ok in Hs.
    rewrite Forall_forall in Hs. by apply Hs.
  - intros o t Ht.
    pose proof (reachable_team_ok uuid_ok _ (reachable_exec uuid_ok o s Hs)) as H.
    rewrite Forall_forall in H. by apply H.
Qed.

(** C10.  In every state the service reaches, and so after every call
    of the four team operations made in such a state, no member list
    holds the same user id twice. *)
Theorem members_no_duplicates s :
  reachable uuid_ok s ->
  (∀ t, t ∈ teams s -> NoDup (t_members t))
  ∧ (∀ o t, t ∈ teams (exec uuid_ok o s) -> NoDup (t_members t)).
Proof.
  intros Hs. split.
  - intros t Ht. apply reachable_team_ok in Hs.
    rewrite Forall_forall in Hs. by apply Hs.
  - intros o t Ht.
    pose proof (reachable_team_ok uuid_ok _ (reachable_exec uuid_ok o s Hs)) as H.
    rewrite Forall_forall in H. by apply H.
Qed.

End TeamClaims.

Lemma demo_db_reachable : reachable canonical_uuid demo_db.
Proof. apply reachable_run, reachable_empty. Qed.

(** In [demo_db] the first team has admin [U1] and members [U1], [U2];
    after [update_team] makes [U2] its admin, the members are the same. *)
Lemma admin_is_member_witness :
  (t_admin <$> teams demo_db = [U1; U2] ∧ t_members <$> teams demo_db = [[U1; U2]; [U2]])
  ∧ (∀ t, t ∈ teams demo_db -> t_admin t ∈ t_members t)
  ∧ (∀ o t, t ∈ teams (exec canonical_uuid o demo_db) -> t_admin t ∈ t_members t).
Proof.
  split; [split; vm_compute; reflexivity|].
  apply (admin_is_member canonical_uuid demo_db), demo_db_reachable.
Defined.

(** [add_users_to_team] was called with [U2] twice in [demo_ops]; the
    stored list has it once. *)
Lemma members_no_duplicates_witness :
  t_members <$> teams demo_db = [[U1; U2]; [U2]]
  ∧ (∀ t, t ∈ teams demo_db -> NoDup (t_members t))
  ∧ (∀ o t, t ∈ teams (exec canonical_uuid o demo_db) -> NoDup (t_members t)).
Proof.
  split; [vm_compute; reflexivity|].
  apply (members_no_duplicates canonical_uuid demo_db), demo_db_reachable.
Defined.

(** ** AddUsersToTeam and the limit of 50 members (C5) *)

Section AddUsers.

Import Teams.

Lemma first_missing_None user_ids users :
  (∀ u, u ∈ user_ids -> user_exists u users = true) ->
  first_missing user_ids users = None.
Proof.
  intros H. unfold first_missing.
  destruct (List.find _ user_ids) as [u|] eqn:E; [|done].
  apply find_some in E as [Hin Hneg]. apply list_elem_of_In in Hin.
  apply H in Hin. unfold user_exists in Hin.
  apply existsb_true_iff in Hin as (usr & Husr & Heq%String.eqb_eq).
  apply negb_true_iff, bool_decide_eq_false in Hneg. destruct Hneg.
  apply elem_of_list_to_set, list_elem_of_fmap. by exists usr.
Qed.

(** C5.  When the team exists, every id of the request is the id of a
    user, and the union of the members and the requested ids has more
    than 50 elements, [add_users_to_team] raises (the builtin
    [ValueError], the exception of every rejected request of [teams.py])
    and the store, so the member list, is as before. *)
Theorem add_users_over_limit req s team_id i t :
  ur_id req = Some team_id -> team_id ≠ "" ->
  team_index team_id (teams s) = Some i ->
  teams s !! i = Some t ->
  (∀ u, u ∈ ur_users req -> user_exists u (users s) = true) ->
  50 < size (list_to_set (t_members t) ∪ list_to_set (ur_users req) : gset string) ->
  add_users_to_team req s =
    (Raise (ValueError "Cannot add users: team would exceed 50 member limit"), s).
Proof.
  intros Hid Hne Hi Ht Hex Hsize. unfold add_users_to_team. unfold_monad.
  rewrite Hid. apply truthy_spec in Hne. rewrite Hne. simpl.
  rewrite (first_missing_None _ _ Hex), Hi. unfold members_at. rewrite Ht. simpl.
  destruct (Nat.ltb_spec 50
              (size (list_to_set (t_members t) ∪ list_to_set (ur_users req) : gset string)))
    as [_|?]; [done|lia].
Qed.

Lemma add_users_over_limit_witness :
  length (t_members <$> teams crowd_db) = 1
  ∧ add_users_to_team (mk_users_request (Some T1) [nth_id 3; nth_id 50]) crowd_db =
      (Raise (ValueError "Cannot add users: team would exceed 50 member limit"), crowd_db).
Proof.
  split; [vm_compute; reflexivity|].
  eapply (add_users_over_limit _ crowd_db T1 0).
  - reflexivity.
  - vm_compute. discriminate.
  - vm_compute. reflexivity.
  - reflexivity.
  - intros u Hu. by_cases_on_list Hu.
  - vm_compute. lia.
Defined.

End AddUsers.

(** ** CloseBoard (C4) *)

Section CloseBoard.

Import ProjectBoard.

Lemma incomplete_nonempty board_id (l : list task) t :
  t ∈ l -> k_board_id t = board_id -> k_status t ≠ "COMPLETE" ->
  filter (fun t => k_status t ≠ "COMPLETE") (board_tasks board_id l) ≠ [].
Proof.
  intros Hin Hb Hst Hnil.
  eapply (filter_nil_not_elem_of _ _ t Hnil); [done|].
  unfold board_tasks. by apply list_elem_of_filter.
Qed.





End CloseBoard.

(** ** CreateBoard: names are unique per team (C6) *)

Section CreateBoard.

Import ProjectBoard.

(** C6.  [create_board] raises (the builtin [ValueError]) when a board
    of the same team has the name already; it returns and stores the new
    OPEN board when the other checks pass and every stored board of that
    name belongs to another team. *)
Theorem create_board_name_scope fresh now req s :
  let name := strip (cb_name req) in
  let description := strip (cb_description req) in
  let team_id := strip (cb_team_id req) in
  ((∃ b, b ∈ boards s ∧ b_team_id b = team_id ∧ b_name b = name) ->
     (∃ msg, create_board fresh now req s = (Raise (ValueError msg), s))
     ∧ (name ≠ "" -> String.length name <= 64 -> String.length description <= 128 ->
        team_id ≠ "" -> (∃ t, t ∈ teams s ∧ t_id t = team_id) ->
        create_board fresh now req s =
          (Raise (ValueError "Board name must be unique within the team"), s)))
  ∧ (name ≠ "" -> String.length name <= 64 -> String.length description <= 128 ->
     team_id ≠ "" -> (∃ t, t ∈ teams s ∧ t_id t = team_id) ->
     (∀ b, b ∈ boards s -> b_name b = name -> b_team_id b ≠ team_id) ->
     create_board fresh now req s =
       (Return fresh,
        mk_db (users s) (teams s)
              (boards s ++ [mk_board fresh name description team_id
                                     (time_or_now (cb_creation_time req) now) "OPEN" None])
              (tasks s))).
Proof.
  intros name description team_id.
  assert (name ≠ "" -> String.length name <= 64 -> String.length description <= 128 ->
          team_id ≠ "" -> (∃ t, t ∈ teams s ∧ t_id t = team_id) ->
          create_board fresh now req s =
            if existsb (fun b => String.eqb (b_team_id b) team_id && String.eqb (b_name b) name)
                       (boards s)
            then (Raise (ValueError "Board name must be unique within the team"), s)
            else (Return fresh,
                  mk_db (users s) (teams s)
                        (boards s ++ [mk_board fresh name description team_id
                                               (time_or_now (cb_creation_time req) now)
                                               "OPEN" None])
                        (tasks s))) as Hrun.
  { intros Hn Hln Hld Ht (t & Hin & Hid).
    unfold create_board. fold name description team_id.
    apply truthy_spec in Hn. apply truthy_spec in Ht. rewrite Hn, Ht. simpl.
    unfold longer_than.
    destruct (Nat.ltb_spec 64 (String.length name)) as [?|_]; [lia|].
    destruct (Nat.ltb_spec 128 (String.length description)) as [?|_]; [lia|].
    rewrite andb_false_r. unfold_monad. simpl.
    assert (existsb (fun t => String.eqb (t_id t) team_id) (teams s) = true) as ->.
    { apply existsb_true_iff. exists t. split; [done|]. by apply String.eqb_eq. }
    simpl. by destruct (existsb _ (boards s)). }
  split.
  - intros (b & Hin & Hteam & Hname).
    assert (existsb (fun b => String.eqb (b_team_id b) team_id && String.eqb (b_name b) name)
              (boards s) = true) as Hdup.
    { apply existsb_true_iff. exists b. split; [done|].
      apply andb_true_iff. split; by apply String.eqb_eq. }
    split.
    + unfold create_board. fold name description team_id. unfold_monad.
      branches; try congruence; by eexists.
    + intros Hn Hln Hld Ht Hex. by rewrite Hrun, Hdup.
  - intros Hn Hln Hld Ht Hex Hother. rewrite Hrun by done.
    assert (existsb (fun b => String.eqb (b_team_id b) team_id && String.eqb (b_name b) name)
              (boards s) = false) as ->; [|done].
    apply existsb_false_iff. intros b Hin.
    destruct (String.eqb_spec (b_name b) name) as [Heq|?]; [|by rewrite andb_false_r].
    rewrite andb_true_r. apply String.eqb_neq. by apply Hother.
Qed.

(** On [demo_db], where the team [T1] has a board "Sprint": a second
    "Sprint" for [T1] is refused, and "Sprint" for [T2] is created. *)
Lemma create_board_name_scope_witness :
  create_board "bbbbbbbb-0000-4000-8000-000000000003" "2025-01-01T10:00:00"
    (mk_create_board_request "Sprint" "" T1 None) demo_db =
    (Raise (ValueError "Board name must be unique within the team"), demo_db)
  ∧ create_board "bbbbbbbb-0000-4000-8000-000000000003" "2025-01-01T10:00:00"
      (mk_create_board_request "Sprint" "" T2 None) demo_db =
      (Return "bbbbbbbb-0000-4000-8000-000000000003",
       mk_db (users demo_db) (teams demo_db)
             (boards demo_db ++
                [mk_board "bbbbbbbb-0000-4000-8000-000000000003" "Sprint" "" T2
                          "2025-01-01T10:00:00" "OPEN" None])
             (tasks demo_db)).
Proof.
  split.
  - apply (proj1 (create_board_name_scope _ _ _ _)).
    + exists (mk_board B1 "Sprint" "" T1 "2025-01-01T09:04:00" "OPEN" None).
      split; [apply list_elem_of_lookup; exists 0; vm_compute; reflexivity|].
      split; vm_compute; reflexivity.
    + vm_compute. discriminate.
    + vm_compute. lia.
    + vm_compute. lia.
    + vm_compute. discriminate.
    + exists (mk_team T1 "dev" "Developers" U1 [U1; U2] "2025-01-01T09:02:00").
      split; [apply list_elem_of_lookup; exists 0; vm_compute; reflexivity|].
      vm_compute. reflexivity.
  - apply (proj2 (create_board_name_scope _ _
                    (mk_create_board_request "Sprint" "" T2 None) _)).
    + vm_compute. discriminate.
    + vm_compute. lia.
    + vm_compute. lia.
    + vm_compute. discriminate.
    + exists (mk_team T2 "qa" "Testers" U2 [U2] "2025-01-01T09:03:00").
      split; [apply list_elem_of_lookup; exists 1; vm_compute; reflexivity|].
      vm_compute. reflexivity.
    + intros b Hb _. by_cases_on_list Hb.
Defined.

End CreateBoard.

(** ** UpdateTaskStatus (C7) and AddTask on a closed board (C9) *)

Section Tasks.

Import ProjectBoard.

(** C7.  For a stored task [t] and each of the three status values,
    [update_task_status] with the id of [t] returns, and the stored
    tasks are those from before, in their order, with the status of [t]
    replaced by the given one, whatever the status of [t] was; no
    transition is refused.  [t] is the first stored task with its id
    and, as ids are [uuid4] values and no two are the same, the only
    one.  An id that no stored task has makes the call raise and changes
    nothing. *)
Theorem update_task_status_overwrites task_id status s :
  task_id ≠ "" ->
  status = "OPEN" ∨ status = "IN_PROGRESS" ∨ status = "COMPLETE" ->
  let call :=
    update_task_status (mk_update_task_status_request (Some task_id) (Some status)) s in
  let with_status (t : task) :=
    mk_task (k_id t) (k_title t) (k_description t) (k_user_id t) (k_board_id t)
            (k_creation_time t) status in
  (∀ before t after,
     tasks s = (before ++ t :: after)%list -> k_id t = task_id ->
     (∀ x, x ∈ before -> k_id x ≠ task_id) ->
     call = (Return tt,
             mk_db (users s) (teams s) (boards s) (before ++ with_status t :: after)%list))
  ∧ (NoDup (k_id <$> tasks s) ->
     ∀ t, t ∈ tasks s -> k_id t = task_id ->
     ∃ before after,
       tasks s = (before ++ t :: after)%list
       ∧ call = (Return tt,
                 mk_db (users s) (teams s) (boards s)
                       (before ++ with_status t :: after)%list))
  ∧ ((∀ x, x ∈ tasks s -> k_id x ≠ task_id) ->
     call = (Raise (ValueError "Task not found"), s)).
Proof.
  intros Hne Hst call with_status.
  assert (truthy task_id = true) as Hid by (by apply truthy_spec).
  assert (elem_str status valid_statuses = true) as Hvalid.
  { destruct Hst as [->|[->| ->]]; reflexivity. }
  assert (call =
          match task_index task_id (tasks s) with
          | None => (Raise (ValueError "Task not found"), s)
          | Some i =>
              (Return tt,
               mk_db (users s) (teams s) (boards s) (alter (set_status status) i (tasks s)))
          end) as Hcall.
  { unfold call, update_task_status. cbn [us_id us_status]. unfold_monad.
    rewrite Hid, Hvalid. cbn [negb]. by destruct (task_index task_id (tasks s)). }
  assert (∀ before t after,
            tasks s = (before ++ t :: after)%list -> k_id t = task_id ->
            (∀ x, x ∈ before -> k_id x ≠ task_id) ->
            call = (Return tt,
                    mk_db (users s) (teams s) (boards s)
                          (before ++ with_status t :: after)%list)) as Hfirst.
  { intros before t after Hsplit Ht Hbefore. rewrite Hcall. unfold task_index.
    rewrite Hsplit.
    rewrite (find_index_app _ before t after).
    - by rewrite alter_middle.
    - intros y Hy. apply String.eqb_neq. by apply Hbefore.
    - by apply String.eqb_eq. }
  split; [exact Hfirst|]. split.
  - intros Hnd t Hin Ht.
    apply list_elem_of_split in Hin as (before & after & Hsplit).
    exists before, after. split; [done|]. apply Hfirst; [done..|].
    intros x Hx Heq. rewrite Hsplit, fmap_app, fmap_cons in Hnd.
    apply NoDup_app in Hnd as (_ & Hdisj & _).
    apply (Hdisj (k_id x)).
    + apply list_elem_of_fmap. by exists x.
    + rewrite Heq, <- Ht. apply list_elem_of_here.
  - intros Hnone. rewrite Hcall. unfold task_index.
    rewrite find_index_None; [done|].
    intros y Hy. apply String.eqb_neq. by apply Hnone.
Qed.

(** In [two_tasks_db] the second task, [K2], is COMPLETE; it goes back
    to OPEN and the first task stays IN_PROGRESS.  No stored task has the
    id "no-such-task". *)
Lemma update_task_status_overwrites_witness :
  (k_id <$> tasks two_tasks_db = [K1; K2]
   ∧ k_status <$> tasks two_tasks_db = ["IN_PROGRESS"; "COMPLETE"])
  ∧ (∃ s', update_task_status (mk_update_task_status_request (Some K2) (Some "OPEN"))
             two_tasks_db = (Return tt, s')
           ∧ k_id <$> tasks s' = [K1; K2]
           ∧ k_status <$> tasks s' = ["IN_PROGRESS"; "OPEN"])
  ∧ update_task_status (mk_update_task_status_request (Some "no-such-task") (Some "OPEN"))
      two_tasks_db = (Raise (ValueError "Task not found"), two_tasks_db).
Proof.
  split; [split; vm_compute; reflexivity|].
  assert (K2 ≠ "") as Hne by (vm_compute; discriminate).
  assert ("no-such-task" ≠ "") as Hne' by (vm_compute; discriminate).
  assert ("OPEN" = "OPEN" ∨ "OPEN" = "IN_PROGRESS" ∨ "OPEN" = "COMPLETE") as Hst by (by left).
  pose (t1 := mk_task K1 "t1" "" U1 B1 "2025-01-01T09:06:00" "IN_PROGRESS").
  pose (t2 := mk_task K2 "t2" "" U2 B1 "2025-01-01T09:08:00" "COMPLETE").
  assert (tasks two_tasks_db = ([t1] ++ t2 :: [])%list) as Hsplit by (vm_compute; reflexivity).
  split.
  - eexists. split.
    + apply (proj1 (update_task_status_overwrites K2 "OPEN" two_tasks_db Hne Hst)
               [t1] t2 [] Hsplit eq_refl).
      intros x Hx. apply list_elem_of_singleton in Hx as ->. vm_compute. discriminate.
    + split; vm_compute; reflexivity.
  - apply (proj2 (proj2 (update_task_status_overwrites "no-such-task" "OPEN" two_tasks_db
                           Hne' Hst))).
    intros x Hx. by_cases_on_list Hx.
Defined.

(** C9.  When the request names a board and that board is CLOSED,
    [add_task] raises (the builtin [ValueError]; with the message "Can
    only add tasks to OPEN boards" when the field checks pass) and the
    store, so the task collection, is as before. *)
Theorem add_task_closed_board fresh now req s board_id b :
  at_board_id req = Some board_id -> board_id ≠ "" ->
  find_board board_id (boards s) = Some b ->
  b_status b = "CLOSED" ->
  let title := strip (at_title req) in
  let description := strip (at_description req) in
  let user_id := strip (at_user_id req) in
  (∃ msg, add_task fresh now req s = (Raise (ValueError msg), s))
  ∧ (title ≠ "" -> String.length title <= 64 -> String.length description <= 128 ->
     user_id ≠ "" ->
     add_task fresh now req s = (Raise (ValueError "Can only add tasks to OPEN boards"), s)).
Proof.
  intros Hid Hne Hfind Hclosed title description user_id.
  assert (resolve_board (at_board_id req) (boards s) s =
          (Raise (ValueError "Can only add tasks to OPEN boards"), s)) as Hres.
  { unfold resolve_board. rewrite Hid. simpl.
    apply truthy_spec in Hne. rewrite Hne, Hfind, Hclosed. done. }
  split.
  - unfold add_task. fold title description user_id. unfold_monad.
    branches; try (eexists; reflexivity).
    all: rewrite Hres in *; simplify_eq; eexists; reflexivity.
  - intros Ht Hlt Hld Hu. unfold add_task. fold title description user_id.
    apply truthy_spec in Ht. apply truthy_spec in Hu. rewrite Ht, Hu. simpl.
    unfold longer_than.
    destruct (Nat.ltb_spec 64 (String.length title)) as [?|_]; [lia|].
    destruct (Nat.ltb_spec 128 (String.length description)) as [?|_]; [lia|].
    rewrite andb_false_r. unfold_monad. simpl. by rewrite Hres.
Qed.

(** The board [B2] of [demo_db] is CLOSED. *)
Lemma add_task_closed_board_witness :
  add_task K2 "2025-01-01T10:00:00" (mk_add_task_request "t2" "" U1 None (Some B2)) demo_db =
    (Raise (ValueError "Can only add tasks to OPEN boards"), demo_db).
Proof.
  assert (B2 ≠ "") as Hne by (vm_compute; discriminate).
  assert (find_board B2 (boards demo_db) =
          Some (mk_board B2 "Done" "" T1 "2025-01-01T09:05:00" "CLOSED"
                         (Some "2025-01-01T09:07:00"))) as Hfind
    by (vm_compute; reflexivity).
  apply (proj2 (add_task_closed_board K2 "2025-01-01T10:00:00"
                  (mk_add_task_request "t2" "" U1 None (Some B2)) demo_db B2 _
                  eq_refl Hne Hfind eq_refl)).
  - vm_compute. discriminate.
  - vm_compute. lia.
  - vm_compute. lia.
  - vm_compute. discriminate.
Defined.

End Tasks.

(** ** UpdateUser: the name cannot change (C8) *)

Section UpdateUser.

Import User.

Variable uuid_ok : string -> bool.


End UpdateUser.



(** * Further properties of the managers *)

(** ** A call that raises leaves the store as it was *)

Section Atomicity.

Variable uuid_ok : string -> bool.

Ltac unfold_ops :=
  unfold User.create_user, User.update_user, User.validate_name, User.validate_uuid,
    User.validate_display_name, User.validate_required_field, User.validate_string_length,
    User._check_name_uniqueness,
    Teams.create_team, Teams.update_team, Teams.add_users_to_team,
    Teams.remove_users_from_team,
    ProjectBoard.create_board, ProjectBoard.close_board, ProjectBoard.add_task,
    ProjectBoard.resolve_board, ProjectBoard.update_task_status.

(** X1.  Every manager writes its collection as its last step.  Whenever
    one of the eight writing operations of [teams.py] and [board.py]
    raises, the four collections are the ones the call started with.  So
    they are when [create_user] or [update_user] raises one of the errors
    it raises itself, before the write; its last [except] clause, whose
    error is [unexpected], is left out, because that error is also what
    [user.py] makes of a write that fails. *)
Theorem raise_leaves_store o s e :
  exec_failure uuid_ok o s = Some e ->
  (is_user_op o = true -> unexpected e = false) ->
  exec uuid_ok o s = s.
Proof.
  intros H _. revert H.
  destruct o; simpl; unfold_ops; unfold_monad; branches; (done || discriminate).
Qed.

End Atomicity.

(** Closing "Sprint", which has an OPEN task, and creating a second user
    "alice" both raise and change nothing. *)
Lemma raise_leaves_store_witness :
  (exec_failure canonical_uuid (CloseBoard "2025-01-01T10:00:00" (Some B1)) demo_db =
     Some (ValueError "Cannot close board: not all tasks are complete")
   ∧ exec canonical_uuid (CloseBoard "2025-01-01T10:00:00" (Some B1)) demo_db = demo_db)
  ∧ (exec_failure canonical_uuid
       (CreateUser K2 "2025-01-01T10:00:00" (User.mk_create_user_request "alice" "")) demo_db =
       Some (DuplicateResourceError "User name must be unique")
     ∧ exec canonical_uuid
         (CreateUser K2 "2025-01-01T10:00:00" (User.mk_create_user_request "alice" "")) demo_db
       = demo_db).
Proof.
  assert (exec_failure canonical_uuid (CloseBoard "2025-01-01T10:00:00" (Some B1)) demo_db =
          Some (ValueError "Cannot close board: not all tasks are complete")) as H1
    by (vm_compute; reflexivity).
  assert (exec_failure canonical_uuid
            (CreateUser K2 "2025-01-01T10:00:00" (User.mk_create_user_request "alice" ""))
            demo_db = Some (DuplicateResourceError "User name must be unique")) as H2
    by (vm_compute; reflexivity).
  split; (split; [done|]).
  - apply (raise_leaves_store canonical_uuid _ _ _ H1). intros [=].
  - apply (raise_leaves_store canonical_uuid _ _ _ H2). intros _. reflexivity.
Defined.

(** ** What each operation does to the collections *)

Section Effects.

Import User Teams ProjectBoard.

Variable uuid_ok : string -> bool.

Lemma create_user_effect fresh now req s :
  let s' := (create_user fresh now req s).2 in
  teams s' = teams s ∧ boards s' = boards s ∧ tasks s' = tasks s
  ∧ (users s' = users s
     ∨ ∃ name dn : string, users s' = (users s ++ [mk_user fresh name dn now])%list
         ∧ (Forall (fun c => name_char c = true) (String.list_ascii_of_string name)
            ∧ name ≠ "")
         ∧ String.length name <= 64 ∧ dn ≠ ""
         ∧ ∀ u, u ∈ users s -> u_name u ≠ name).
Proof.
  unfold create_user, validate_name, validate_display_name, validate_required_field,
    validate_string_length, _check_name_uniqueness.
  unfold_monad. branches; repeat split; try done; try (by left).
  all: right; eexists _, _; split; [reflexivity|].
  all: repeat match goal with
         | H : negb _ = false |- _ => apply negb_false_iff in H
         end.
  all: repeat split.
  all: try done.
  all: try match goal with
         | H : match_name _ = true |- Forall _ _ => by apply match_name_chars
         end.
  all: try match goal with
         | H : longer_than _ MAX_NAME_LENGTH = false |- _ <= 64 =>
             unfold longer_than, MAX_NAME_LENGTH in H; apply Nat.ltb_ge in H; exact H
         end.
  all: try match goal with
         | H : truthy ?x = true |- ?x ≠ "" => by apply truthy_spec
         end.
  all: try match goal with
         | H : List.find _ _ = None |- ∀ u, _ =>
             intros u Hu; apply list_elem_of_In in Hu;
             apply (find_none _ _ H) in Hu; by apply String.eqb_neq
         end.
Qed.

Lemma update_user_effect req s :
  let s' := (update_user uuid_ok req s).2 in
  teams s' = teams s ∧ boards s' = boards s ∧ tasks s' = tasks s
  ∧ (users s' = users s
     ∨ ∃ (i : nat) (d : string), d ≠ "" ∧ users s' = alter (set_display_name d) i (users s)).
Proof.
  unfold update_user, validate_uuid, validate_display_name, validate_required_field,
    validate_string_length.
  unfold_monad. branches; repeat split; try done; try (by left).
  all: right; eexists _, _; split; [|reflexivity].
  all: match goal with
       | H : truthy ?x = true |- ?x ≠ "" => by apply truthy_spec
       end.
Qed.

Lemma create_team_effect fresh now req s :
  let s' := (create_team fresh now req s).2 in
  users s' = users s ∧ boards s' = boards s ∧ tasks s' = tasks s
  ∧ (teams s' = teams s
     ∨ ∃ name description admin : string,
         teams s' = (teams s ++ [mk_team fresh name description admin [admin] now])%list
         ∧ name ≠ "" ∧ user_exists admin (users s) = true
         ∧ ∀ t, t ∈ teams s -> t_name t ≠ name).
Proof.
  unfold create_team. unfold_monad. branches; repeat split; try done; try (by left).
  right. eexists _, _, _. split; [reflexivity|].
  repeat match goal with
         | H : negb _ = false |- _ => apply negb_false_iff in H
         end.
  repeat split; [by apply truthy_spec | done |].
  intros t Ht. apply String.eqb_neq.
  match goal with H : existsb _ _ = false |- _ => exact (proj1 (existsb_false_iff _ _) H t Ht) end.
Qed.

Lemma alter_updated_team name description admin i (l : list team) :
  alter (updated_team name description admin) i l =
  (let l := if truthy admin
            then alter (fun t => if elem_str admin (t_members t) then t
                                 else set_members (t_members t ++ [admin]) t) i l
            else l in
   let l := if truthy name then alter (set_name name) i l else l in
   let l := if truthy description then alter (set_description description) i l else l in
   if truthy admin then alter (set_admin admin) i l else l).
Proof.
  unfold updated_team. simpl.
  destruct (truthy admin), (truthy name), (truthy description);
    rewrite ?list_alter_alter_eq; simpl.
  all: try (apply list_alter_ext; [|done..]; intros t _;
            unfold compose, set_admin, set_name, set_description, set_members;
            simpl; by destruct (elem_str admin (t_members t)), t).
  all: apply list_alter_id; intros t; by destruct t.
Qed.

Lemma update_team_effect req s :
  let name := strip (tf_name (ut_team req)) in
  let description := strip (tf_description (ut_team req)) in
  let admin := strip (tf_admin (ut_team req)) in
  let s' := (update_team req s).2 in
  users s' = users s ∧ boards s' = boards s ∧ tasks s' = tasks s
  ∧ (teams s' = teams s
     ∨ ∃ (team_id : string) (i : nat),
         ut_id req = Some team_id ∧ team_index team_id (teams s) = Some i
         ∧ teams s' = alter (updated_team name description admin) i (teams s)
         ∧ (name ≠ "" -> ∀ t, t ∈ teams s -> t_name t = name -> t_id t = team_id)
         ∧ (admin ≠ "" -> user_exists admin (users s) = true)).
Proof.
  intros name description admin.
  unfold update_team. fold name description admin. unfold_monad.
  branches; repeat split; try done; try (by left).
  all: right; eexists _, _; split; [reflexivity|]; split; [eassumption|].
  all: rewrite alter_updated_team; simpl.
  all: repeat match goal with
         | H : truthy _ = _ |- _ => rewrite H in *
         end; simpl in *.
  all: split; [reflexivity|].
  all: repeat match goal with
         | H : negb _ = false |- _ => apply negb_false_iff in H
         end.
  all: split.
  all: try (intros Hne; apply truthy_spec in Hne; congruence).
  all: intros _ t Ht Hn.
  all: match goal with
       | H : existsb _ _ = false |- _ =>
           pose proof (proj1 (existsb_false_iff _ _) H t Ht) as Hf; simpl in Hf
       end.
  all: apply String.eqb_eq in Hn; rewrite Hn in Hf; simpl in Hf.
  all: apply negb_false_iff in Hf; by apply String.eqb_eq in Hf.
Qed.

Lemma first_missing_spec user_ids users :
  first_missing user_ids users = None ->
  ∀ u, u ∈ user_ids -> user_exists u users = true.
Proof.
  unfold first_missing. intros H u Hu.
  apply list_elem_of_In in Hu. apply (find_none _ _ H) in Hu.
  apply negb_false_iff, bool_decide_eq_true in Hu.
  apply elem_of_list_to_set, list_elem_of_fmap in Hu as (usr & -> & Husr).
  apply existsb_true_iff. exists usr. split; [done | apply String.eqb_refl].
Qed.

Lemma add_users_to_team_effect req s :
  let s' := (add_users_to_team req s).2 in
  users s' = users s ∧ boards s' = boards s ∧ tasks s' = tasks s
  ∧ (teams s' = teams s
     ∨ ∃ (team_id : string) (i : nat) (t : team),
         ur_id req = Some team_id ∧ team_index team_id (teams s) = Some i
         ∧ teams s !! i = Some t
         ∧ teams s' =
             alter (set_members
                      (elements (list_to_set (t_members t) ∪ list_to_set (ur_users req)
                                 : gset string))) i (teams s)
         ∧ size (list_to_set (t_members t) ∪ list_to_set (ur_users req) : gset string) <= 50
         ∧ ∀ u, u ∈ ur_users req -> user_exists u (users s) = true).
Proof.
  unfold add_users_to_team, members_at. unfold_monad.
  branches; repeat split; try done; try (by left).
  match goal with H : team_index _ _ = Some ?n |- _ =>
    destruct (teams s !! n) as [t|] eqn:Ht end.
  - right. eexists _, _, t. split; [reflexivity|]. split; [eassumption|].
    split; [done|]. simpl in *. split; [reflexivity|]. split.
    + match goal with H : Nat.ltb _ _ = false |- _ => by apply Nat.ltb_ge in H end.
    + by apply first_missing_spec.
  - left. simpl. apply list_eq. intros j.
    destruct (decide (j = n)) as [->|Hne].
    + by rewrite list_lookup_alter_eq, Ht.
    + by rewrite list_lookup_alter_ne.
Qed.

Lemma remove_users_from_team_effect req s :
  let s' := (remove_users_from_team req s).2 in
  users s' = users s ∧ boards s' = boards s ∧ tasks s' = tasks s
  ∧ (teams s' = teams s
     ∨ ∃ (team_id : string) (i : nat) (t : team),
         ur_id req = Some team_id ∧ team_index team_id (teams s) = Some i
         ∧ teams s !! i = Some t
         ∧ teams s' =
             alter (set_members
                      (elements (list_to_set (t_members t) ∖ list_to_set (ur_users req)
                                 : gset string))) i (teams s)
         ∧ t_admin t ∉ ur_users req).
Proof.
  unfold remove_users_from_team, members_at. unfold_monad.
  branches; repeat split; try done; try (by left).
  match goal with H : team_index _ _ = Some ?n |- _ =>
    destruct (teams s !! n) as [t|] eqn:Ht end.
  - right. eexists _, _, t. split; [reflexivity|]. split; [eassumption|].
    split; [done|]. simpl in *. split; [reflexivity|].
    by apply elem_str_false.
  - left. simpl. apply list_eq. intros j.
    destruct (decide (j = n)) as [->|Hne].
    + by rewrite list_lookup_alter_eq, Ht.
    + by rewrite list_lookup_alter_ne.
Qed.

Lemma create_board_effect fresh now req s :
  let s' := (create_board fresh now req s).2 in
  users s' = users s ∧ teams s' = teams s ∧ tasks s' = tasks s
  ∧ (boards s' = boards s
     ∨ ∃ name description team_id creation_time : string,
         boards s' = (boards s ++ [mk_board fresh name description team_id creation_time
                                            "OPEN" None])%list
         ∧ team_id ∈ t_id <$> teams s
         ∧ ∀ b, b ∈ boards s -> board_key b ≠ (team_id, name)).
Proof.
  unfold create_board. unfold_monad.
  branches; repeat split; try done; try (by left).
  right. eexists _, _, _, _. split; [reflexivity|].
  repeat match goal with
         | H : negb _ = false |- _ => apply negb_false_iff in H
         end.
  split.
  - match goal with H : existsb _ (teams s) = true |- _ =>
      apply existsb_true_iff in H as (t & Ht & Heq%String.eqb_eq) end.
    apply list_elem_of_fmap. by exists t.
  - intros b Hb [= Ht Hn].
    match goal with H : existsb _ (boards s) = false |- _ =>
      pose proof (proj1 (existsb_false_iff _ _) H b Hb) as Hf end.
    simpl in Hf. rewrite Ht, Hn, !String.eqb_refl in Hf. discriminate Hf.
Qed.

Lemma close_board_effect now id s :
  let s' := (close_board now id s).2 in
  users s' = users s ∧ teams s' = teams s ∧ tasks s' = tasks s
  ∧ (boards s' = boards s
     ∨ ∃ (board_id : string) (i : nat) (b : board),
         id = Some board_id ∧ board_index board_id (boards s) = Some i
         ∧ boards s !! i = Some b ∧ b_status b ≠ "CLOSED"
         ∧ boards s' = alter (close now) i (boards s)
         ∧ ∀ t, t ∈ tasks s -> k_board_id t = board_id -> k_status t = "COMPLETE").
Proof.
  unfold close_board. unfold_monad.
  branches; repeat split; try done; try (by left).
  match goal with H : board_index _ _ = Some ?n |- _ =>
    destruct (boards s !! n) as [b|] eqn:Hb end.
  - right. eexists _, _, b. split; [reflexivity|]. split; [eassumption|].
    split; [done|]. simpl in *. split; [by apply String.eqb_neq|].
    split; [reflexivity|].
    intros t Ht Hbt. destruct (decide (k_status t = "COMPLETE")) as [|Hne]; [done|].
    exfalso. eapply incomplete_nonempty; eauto.
  - left. simpl. apply list_eq. intros j.
    destruct (decide (j = n)) as [->|Hne].
    + by rewrite list_lookup_alter_eq, Hb.
    + by rewrite list_lookup_alter_ne.
Qed.

Lemma add_task_effect fresh now req s :
  let s' := (add_task fresh now req s).2 in
  users s' = users s ∧ teams s' = teams s ∧ boards s' = boards s
  ∧ (tasks s' = tasks s
     ∨ ∃ (b : board) (title description user_id creation_time : string),
         tasks s' = (tasks s ++ [mk_task fresh title description user_id (b_id b)
                                         creation_time "OPEN"])%list
         ∧ b ∈ boards s ∧ b_status b = "OPEN"
         ∧ ∀ t, t ∈ tasks s -> task_key t ≠ (b_id b, title)).
Proof.
  unfold add_task. unfold_monad.
  destruct (resolve_board (at_board_id req) (boards s) s) as [[b|e] s0] eqn:Hres.
  2:{ assert (s0 = s) as ->.
      { revert Hres. unfold resolve_board, find_board. unfold_monad.
        branches; by intros [= <-]. }
      branches;
        try (match goal with H : resolve_board _ _ _ = _ |- _ =>
               rewrite Hres in H; simplify_eq end);
        repeat split; try done; try (by left). }
  assert (s0 = s ∧ b ∈ boards s ∧ b_status b = "OPEN") as (-> & Hb & Hopen).
  { revert Hres. unfold resolve_board, find_board. unfold_monad.
    branches; intros [= <- <-]; (split; [done|]).
    all: first
      [ match goal with H : List.find _ _ = Some _ |- _ =>
          apply find_some in H as [Hin _] end;
        split; [by apply list_elem_of_In|];
        match goal with H : negb _ = false |- _ =>
          apply negb_false_iff in H; by apply String.eqb_eq in H end
      | match goal with H : last _ = Some ?x |- _ =>
          assert (x ∈ filter (fun b => b_status b = "OPEN") (boards s)) as Hin
            by (apply last_Some in H as [l' ->]; apply elem_of_app; right;
                apply list_elem_of_here) end;
        by apply list_elem_of_filter in Hin as [? ?] ]. }
  branches;
    try (match goal with H : resolve_board _ _ _ = _ |- _ =>
           rewrite Hres in H; simplify_eq end);
    repeat split; try done; try (by left).
  right. eexists b, _, _, _, _. split; [reflexivity|]. repeat split; [done..|].
  intros t Ht [= Hbt Htitle].
  match goal with H : existsb _ _ = false |- _ =>
    pose proof (proj1 (existsb_false_iff _ _) H t) as Hf end.
  assert (t ∈ board_tasks (b_id b) (tasks s)) as Hin
    by (unfold board_tasks; by apply list_elem_of_filter).
  apply Hf in Hin. simpl in Hin. rewrite Htitle, String.eqb_refl in Hin. discriminate Hin.
Qed.

Lemma update_task_status_effect req s :
  let s' := (update_task_status req s).2 in
  users s' = users s ∧ teams s' = teams s ∧ boards s' = boards s
  ∧ (tasks s' = tasks s
     ∨ ∃ (i : nat) (status : string),
         status ∈ valid_statuses ∧ tasks s' = alter (set_status status) i (tasks s)).
Proof.
  unfold update_task_status. unfold_monad.
  destruct (us_id req) as [task_id|]; [|by repeat split; try left].
  destruct (truthy task_id); [|by repeat split; try left].
  destruct (us_status req) as [status|]; [|by repeat split; try left].
  destruct (elem_str status valid_statuses) eqn:Hst; [|by repeat split; try left].
  cbn [negb]. destruct (task_index task_id (tasks s)) as [i|];
    [|by repeat split; try left].
  repeat split. right. exists i, status. split; [by apply elem_str_spec | done].
Qed.

End Effects.

(** ** Invariants of the four collections *)

Section Invariants.

Import User Teams ProjectBoard.

Variable uuid_ok : string -> bool.

(** The effect lemma of the operation [o], with the collections that the
    operation leaves alone rewritten to those of [s]. *)
Ltac by_effect o s E :=
  destruct o as [f n r|r|f n r|r|r|r|f n r|n i|f n r|r]; simpl;
  [ pose proof (create_user_effect f n r s) as E
  | pose proof (update_user_effect uuid_ok r s) as E
  | pose proof (create_team_effect f n r s) as E
  | pose proof (update_team_effect r s) as E
  | pose proof (add_users_to_team_effect r s) as E
  | pose proof (remove_users_from_team_effect r s) as E
  | pose proof (create_board_effect f n r s) as E
  | pose proof (close_board_effect n i s) as E
  | pose proof (add_task_effect f n r s) as E
  | pose proof (update_task_status_effect r s) as E ];
  simpl in E; destruct E as (E1 & E2 & E3 & E); rewrite ?E1, ?E2, ?E3.

Lemma exec_users_inv o s :
  Forall user_ok (users s) ∧ NoDup (u_name <$> users s) ->
  Forall user_ok (users (exec uuid_ok o s)) ∧ NoDup (u_name <$> users (exec uuid_ok o s)).
Proof.
  intros [Hok Hnd]. by_effect o s E; try done.
  - destruct E as [->|(name & dn & -> & Hm & Hl & Hdn & Hnew)]; [done|]. split.
    + apply Forall_app. split; [done|]. by apply Forall_singleton.
    + rewrite fmap_app. apply NoDup_app. repeat split; [done| |apply NoDup_singleton].
      intros x (u & -> & Hu)%list_elem_of_fmap Hx%list_elem_of_singleton.
      by apply (Hnew u).
  - destruct E as [->|(i & d & Hd & ->)]; [done|]. split.
    + apply Forall_alter; [done|]. intros u _ ((? & ?) & ? & ?). by repeat split.
    + by rewrite fmap_alter_same.
Qed.

Lemma reachable_users_inv s :
  reachable uuid_ok s -> Forall user_ok (users s) ∧ NoDup (u_name <$> users s).
Proof.
  induction 1 as [|o s _ IH]; [|by apply exec_users_inv].
  split; [constructor | apply NoDup_nil_2].
Qed.

Lemma exec_boards_inv o s :
  Forall board_ok (boards s) ∧ NoDup (board_key <$> boards s) ->
  Forall board_ok (boards (exec uuid_ok o s))
  ∧ NoDup (board_key <$> boards (exec uuid_ok o s)).
Proof.
  intros [Hok Hnd]. by_effect o s E; try done.
  - destruct E as [->|(name & d & team_id & ct & -> & Hteam & Hnew)]; [done|]. split.
    + apply Forall_app. split; [done|]. apply Forall_singleton. by left.
    + rewrite fmap_app. apply NoDup_app. repeat split; [done| |apply NoDup_singleton].
      intros x (b & -> & Hb)%list_elem_of_fmap Hx%list_elem_of_singleton.
      by apply (Hnew b).
  - destruct E as [->|(bid & j & b & -> & Hj & Hb & Hopen & -> & _)]; [done|]. split.
    + apply Forall_alter; [done|]. intros b' _ _. right. by split; [|eexists].
    + by rewrite fmap_alter_same.
Qed.

Lemma reachable_boards_inv s :
  reachable uuid_ok s -> Forall board_ok (boards s) ∧ NoDup (board_key <$> boards s).
Proof.
  induction 1 as [|o s _ IH]; [|by apply exec_boards_inv].
  split; [constructor | apply NoDup_nil_2].
Qed.

Lemma exec_tasks_inv o s :
  Forall (fun t => k_status t ∈ valid_statuses) (tasks s) ∧ NoDup (task_key <$> tasks s) ->
  Forall (fun t => k_status t ∈ valid_statuses) (tasks (exec uuid_ok o s))
  ∧ NoDup (task_key <$> tasks (exec uuid_ok o s)).
Proof.
  intros [Hok Hnd]. by_effect o s E; try done.
  - destruct E as [->|(b & title & d & u & ct & -> & Hb & Hopen & Hnew)]; [done|]. split.
    + apply Forall_app. split; [done|]. apply Forall_singleton. apply list_elem_of_here.
    + rewrite fmap_app. apply NoDup_app. repeat split; [done| |apply NoDup_singleton].
      intros x (t & -> & Ht)%list_elem_of_fmap Hx%list_elem_of_singleton.
      by apply (Hnew t).
  - destruct E as [->|(j & st & Hst & ->)]; [done|]. split.
    + apply Forall_alter; [done|]. by intros t _ _.
    + by rewrite fmap_alter_same.
Qed.

Lemma reachable_tasks_inv s :
  reachable uuid_ok s ->
  Forall (fun t => k_status t ∈ valid_statuses) (tasks s) ∧ NoDup (task_key <$> tasks s).
Proof.
  induction 1 as [|o s _ IH]; [|by apply exec_tasks_inv].
  split; [constructor | apply NoDup_nil_2].
Qed.

Lemma user_exists_spec m (l : list user) :
  user_exists m l = true ↔ m ∈ u_id <$> l.
Proof.
  unfold user_exists. rewrite existsb_true_iff, list_elem_of_fmap. split.
  - intros (u & Hu & Heq%String.eqb_eq). by exists u.
  - intros (u & -> & Hu). exists u. split; [done | apply String.eqb_refl].
Qed.

Lemma exec_refs_ok o s : refs_ok s -> refs_ok (exec uuid_ok o s).
Proof.
  intros (Hm & Hb & Ht). unfold refs_ok. by_effect o s E.
  - (* create_user *)
    destruct E as [->|(name & dn & -> & _)]; [done|]. repeat split; [|done..].
    eapply Forall_impl; [exact Hm|]. intros t Hall.
    eapply Forall_impl; [exact Hall|]. intros m Hex. simpl in Hex.
    apply user_exists_spec. rewrite fmap_app. apply elem_of_app. left.
    by apply user_exists_spec.
  - (* update_user *)
    destruct E as [->|(i & d & _ & ->)]; [done|]. repeat split; [|done..].
    eapply Forall_impl; [exact Hm|]. intros t Hall.
    eapply Forall_impl; [exact Hall|]. intros m Hex. simpl in Hex.
    apply user_exists_spec. rewrite fmap_alter_same by done. by apply user_exists_spec.
  - (* create_team *)
    destruct E as [->|(name & d & admin & -> & _ & Hadm & _)]; [done|].
    repeat split; [| |done].
    + apply Forall_app. split; [done|]. apply Forall_singleton. simpl.
      by repeat constructor.
    + eapply Forall_impl; [exact Hb|]. intros b Hin. simpl in Hin.
      rewrite fmap_app. apply elem_of_app. by left.
  - (* update_team *)
    destruct E as [->|(tid & i & _ & _ & -> & _ & Hadm)]; [done|].
    repeat split; [| |done].
    + apply Forall_alter; [done|]. intros t _ Hall. unfold updated_team. simpl.
      inversion Hall as [|? ? Hx Hmem]; subst.
      destruct (truthy (strip (tf_admin (ut_team r)))) eqn:Htr; simpl.
      * apply truthy_spec in Htr. specialize (Hadm Htr).
        constructor; [done|].
        destruct (elem_str _ (t_members t)); simpl; [done|].
        apply Forall_app. split; [done|]. by apply Forall_singleton.
      * by constructor.
    + by rewrite fmap_alter_same.
  - (* add_users_to_team *)
    destruct E as [->|(tid & i & t & _ & _ & Hi & -> & _ & Hex)]; [done|].
    repeat split; [| |done].
    + apply Forall_alter; [done|]. intros t' Ht' Hall.
      rewrite Hi in Ht'. injection Ht' as <-. simpl.
      inversion Hall as [|? ? Hx Hmem]; subst. constructor; [done|].
      apply Forall_forall. intros m Hin%elem_of_elements.
      apply elem_of_union in Hin as [Hin%elem_of_list_to_set|Hin%elem_of_list_to_set].
      * rewrite Forall_forall in Hmem. by apply Hmem.
      * by apply Hex.
    + by rewrite fmap_alter_same.
  - (* remove_users_from_team *)
    destruct E as [->|(tid & i & t & _ & _ & Hi & -> & _)]; [done|].
    repeat split; [| |done].
    + apply Forall_alter; [done|]. intros t' Ht' Hall.
      rewrite Hi in Ht'. injection Ht' as <-. simpl.
      inversion Hall as [|? ? Hx Hmem]; subst. constructor; [done|].
      apply Forall_forall. intros m Hin%elem_of_elements.
      apply elem_of_difference in Hin as [Hin%elem_of_list_to_set _].
      rewrite Forall_forall in Hmem. by apply Hmem.
    + by rewrite fmap_alter_same.
  - (* create_board *)
    destruct E as [->|(name & d & team_id & ct & -> & Hteam & _)]; [done|].
    repeat split; [done| |].
    + apply Forall_app. split; [done|]. by apply Forall_singleton.
    + eapply Forall_impl; [exact Ht|]. intros t Hin. simpl in Hin.
      rewrite fmap_app. apply elem_of_app. by left.
  - (* close_board *)
    destruct E as [->|(bid & j & b & _ & _ & _ & _ & -> & _)]; [done|].
    repeat split; [done| |].
    + apply Forall_alter; [done|]. by intros b' _ Hb'.
    + by rewrite fmap_alter_same.
  - (* add_task *)
    destruct E as [->|(b & title & d & u & ct & -> & Hin & _)]; [done|].
    repeat split; [done..|].
    apply Forall_app. split; [done|]. apply Forall_singleton. simpl.
    apply list_elem_of_fmap. by exists b.
  - (* update_task_status *)
    destruct E as [->|(j & st & _ & ->)]; [done|].
    repeat split; [done..|].
    apply Forall_alter; [done|]. by intros t _ Hin.
Qed.

Lemma reachable_refs_ok s : reachable uuid_ok s -> refs_ok s.
Proof.
  induction 1 as [|o s _ IH]; [|by apply exec_refs_ok].
  repeat split; constructor.
Qed.

End Invariants.

(** ** What holds in every state the service reaches *)

Section ReachableStates.

Variable uuid_ok : string -> bool.

(** X3.  No two stored users have the same name: [create_user] refuses a
    name that is taken, and no operation changes a stored name. *)
Theorem user_names_unique s :
  reachable uuid_ok s -> NoDup (u_name <$> users s).
Proof. intros Hs. by apply reachable_users_inv in Hs as [_ ?]. Qed.

(** X4.  Every stored user has a name of 1 to 64 characters, each of them
    a letter of a-z or A-Z, a digit, an underscore or a hyphen, and a
    display name that is not empty.  The pattern of [validate_name] lets
    a newline at the end through, but the name it is matched against
    has been stripped and ends in none; [create_user] puts the name in
    the place of a display name that the request does not give, and
    [update_user] ignores an empty one. *)
Theorem users_well_formed s u :
  reachable uuid_ok s -> u ∈ users s ->
  Forall (fun c => let n := nat_of_ascii c in
                   97 <= n <= 122 ∨ 65 <= n <= 90 ∨ 48 <= n <= 57
                   ∨ c = "_"%char ∨ c = "-"%char)
         (String.list_ascii_of_string (u_name u))
  ∧ 1 <= String.length (u_name u) <= 64
  ∧ u_display_name u ≠ "".
Proof.
  intros Hs Hu. apply reachable_users_inv in Hs as [Hok _].
  rewrite Forall_forall in Hok. destruct (Hok u Hu) as ((Hchars & Hne) & Hl & Hd).
  repeat split; [|destruct (u_name u); [done | simpl; lia]|done..].
  eapply Forall_impl; [exact Hchars|].
  intros c Hc. cbn beta zeta in Hc |- *. unfold User.name_char in Hc. cbn zeta in Hc.
  apply orb_true_iff in Hc as [Hc|Hc];
    [|right; right; right; right; apply Nat.eqb_eq in Hc;
      by rewrite <- (ascii_nat_embedding c), Hc].
  apply orb_true_iff in Hc as [Hc|Hc];
    [|right; right; right; left; apply Nat.eqb_eq in Hc;
      by rewrite <- (ascii_nat_embedding c), Hc].
  apply orb_true_iff in Hc as [Hc|Hc];
    [|right; right; left; apply andb_true_iff in Hc as [?%Nat.leb_le ?%Nat.leb_le]; lia].
  apply orb_true_iff in Hc as [Hc|Hc];
    [left|right; left]; apply andb_true_iff in Hc as [?%Nat.leb_le ?%Nat.leb_le]; lia.
Qed.

(** X5.  A stored board is OPEN and has no end time, or CLOSED and has the
    end time that [close_board] stamped. *)
Theorem board_status_and_end_time s b :
  reachable uuid_ok s -> b ∈ boards s ->
  (b_status b = "OPEN" ∧ b_end_time b = None)
  ∨ (b_status b = "CLOSED" ∧ ∃ t, b_end_time b = Some t).
Proof.
  intros Hs Hb. apply reachable_boards_inv in Hs as [Hok _].
  rewrite Forall_forall in Hok. destruct (Hok b Hb) as [?|[? [t ?]]]; [by left|].
  right. split; [done | by exists t].
Qed.

(** X6.  No two stored boards of one team have the same name. *)
Theorem board_names_unique_per_team s :
  reachable uuid_ok s -> NoDup (board_key <$> boards s).
Proof. intros Hs. by apply reachable_boards_inv in Hs as [_ ?]. Qed.

(** X7.  No two stored tasks of one board have the same title. *)
Theorem task_titles_unique_per_board s :
  reachable uuid_ok s -> NoDup (task_key <$> tasks s).
Proof. intros Hs. by apply reachable_tasks_inv in Hs as [_ ?]. Qed.

(** X8.  The status of every stored task is OPEN, IN_PROGRESS or COMPLETE. *)
Theorem task_status_valid s t :
  reachable uuid_ok s -> t ∈ tasks s ->
  k_status t = "OPEN" ∨ k_status t = "IN_PROGRESS" ∨ k_status t = "COMPLETE".
Proof.
  intros Hs Ht. apply reachable_tasks_inv in Hs as [Hok _].
  rewrite Forall_forall in Hok. specialize (Hok t Ht).
  unfold ProjectBoard.valid_statuses in Hok.
  repeat (apply elem_of_cons in Hok as [Hok|Hok]; [by eauto|]).
  by apply elem_of_nil in Hok.
Qed.

(** X9.  Every id that one collection holds of another resolves: the admin
    and the members of a team are stored users, the team of a board is a
    stored team, and the board of a task is a stored board.  (The user
    of a task is not in this list: [add_task] does not look it up.) *)
Theorem references_resolve s :
  reachable uuid_ok s ->
  (∀ t m, t ∈ teams s -> m = t_admin t ∨ m ∈ t_members t ->
          ∃ u, u ∈ users s ∧ u_id u = m)
  ∧ (∀ b, b ∈ boards s -> ∃ t, t ∈ teams s ∧ t_id t = b_team_id b)
  ∧ (∀ k, k ∈ tasks s -> ∃ b, b ∈ boards s ∧ b_id b = k_board_id k).
Proof.
  intros Hs. apply reachable_refs_ok in Hs as (Hm & Hb & Ht).
  rewrite Forall_forall in Hm. rewrite Forall_forall in Hb. rewrite Forall_forall in Ht.
  repeat split.
  - intros t m Hin Hmem. specialize (Hm t Hin). rewrite Forall_forall in Hm.
    assert (m ∈ t_admin t :: t_members t) as Hmm
      by (apply elem_of_cons; destruct Hmem; auto).
    apply Hm, user_exists_spec, list_elem_of_fmap in Hmm as (u & -> & Hu).
    by exists u.
  - intros b Hin. apply Hb, list_elem_of_fmap in Hin as (t & -> & Hin). by exists t.
  - intros k Hin. apply Ht, list_elem_of_fmap in Hin as (b & -> & Hin). by exists b.
Qed.

End ReachableStates.

Lemma user_names_unique_witness :
  u_name <$> users demo_db = ["alice"; "bob"] ∧ NoDup (u_name <$> users demo_db).
Proof.
  split; [vm_compute; reflexivity|].
  exact (user_names_unique canonical_uuid demo_db demo_db_reachable).
Defined.

Lemma users_well_formed_witness :
  let u := mk_user U1 "alice" "alice" "2025-01-01T09:00:00" in
  Forall (fun c => let n := nat_of_ascii c in
                   97 <= n <= 122 ∨ 65 <= n <= 90 ∨ 48 <= n <= 57
                   ∨ c = "_"%char ∨ c = "-"%char)
         (String.list_ascii_of_string (u_name u))
  ∧ 1 <= String.length (u_name u) <= 64
  ∧ u_display_name u ≠ "".
Proof.
  apply (users_well_formed canonical_uuid demo_db _ demo_db_reachable).
  apply list_elem_of_lookup. exists 0. vm_compute. reflexivity.
Defined.

Lemma board_status_and_end_time_witness :
  let b := mk_board B2 "Done" "" T1 "2025-01-01T09:05:00" "CLOSED"
                    (Some "2025-01-01T09:07:00") in
  (b_status b = "OPEN" ∧ b_end_time b = None)
  ∨ (b_status b = "CLOSED" ∧ ∃ t, b_end_time b = Some t).
Proof.
  apply (board_status_and_end_time canonical_uuid demo_db _ demo_db_reachable).
  apply list_elem_of_lookup. exists 1. vm_compute. reflexivity.
Defined.

Lemma board_names_unique_per_team_witness :
  board_key <$> boards demo_db = [(T1, "Sprint"); (T1, "Done")]
  ∧ NoDup (board_key <$> boards demo_db).
Proof.
  split; [vm_compute; reflexivity|].
  exact (board_names_unique_per_team canonical_uuid demo_db demo_db_reachable).
Defined.

Lemma task_titles_unique_per_board_witness :
  task_key <$> tasks demo_db = [(B1, "t1")] ∧ NoDup (task_key <$> tasks demo_db).
Proof.
  split; [vm_compute; reflexivity|].
  exact (task_titles_unique_per_board canonical_uuid demo_db demo_db_reachable).
Defined.

Lemma task_status_valid_witness :
  let t := mk_task K1 "t1" "" U1 B1 "2025-01-01T09:06:00" "OPEN" in
  k_status t = "OPEN" ∨ k_status t = "IN_PROGRESS" ∨ k_status t = "COMPLETE".
Proof.
  apply (task_status_valid canonical_uuid demo_db _ demo_db_reachable).
  apply list_elem_of_lookup. exists 0. vm_compute. reflexivity.
Defined.

Lemma references_resolve_witness :
  (t_members <$> teams demo_db = [[U1; U2]; [U2]] ∧ u_id <$> users demo_db = [U1; U2])
  ∧ (∀ t m, t ∈ teams demo_db -> m = t_admin t ∨ m ∈ t_members t ->
            ∃ u, u ∈ users demo_db ∧ u_id u = m)
  ∧ (∀ b, b ∈ boards demo_db -> ∃ t, t ∈ teams demo_db ∧ t_id t = b_team_id b)
  ∧ (∀ k, k ∈ tasks demo_db -> ∃ b, b ∈ boards demo_db ∧ b_id b = k_board_id k).
Proof.
  split; [split; vm_compute; reflexivity|].
  exact (references_resolve canonical_uuid demo_db demo_db_reachable).
Defined.

(** ** Records are never deleted, and a closed board is final *)

Section Monotone.

Import User Teams ProjectBoard.

Variable uuid_ok : string -> bool.

Ltac by_effect o s E :=
  destruct o as [f n r|r|f n r|r|r|r|f n r|n i|f n r|r]; simpl;
  [ pose proof (create_user_effect f n r s) as E
  | pose proof (update_user_effect uuid_ok r s) as E
  | pose proof (create_team_effect f n r s) as E
  | pose proof (update_team_effect r s) as E
  | pose proof (add_users_to_team_effect r s) as E
  | pose proof (remove_users_from_team_effect r s) as E
  | pose proof (create_board_effect f n r s) as E
  | pose proof (close_board_effect n i s) as E
  | pose proof (add_task_effect f n r s) as E
  | pose proof (update_task_status_effect r s) as E ];
  simpl in E; destruct E as (E1 & E2 & E3 & E); rewrite ?E1, ?E2, ?E3.

(** The case of a call after which the ids are those from before. *)
Ltac unchanged :=
  exists [], [], [], []; rewrite !app_nil_r; simpl; repeat split; lia.

(** X10.  No operation deletes or reorders a record or changes its id: after
    any call, the ids of each collection are the ids from before the
    call, in the same order, followed by the new ids, and the four
    collections together have at most one new id. *)
Theorem ids_only_grow o s :
  let s' := exec uuid_ok o s in
  ∃ nu nt nb nk : list string,
    u_id <$> users s' = ((u_id <$> users s) ++ nu)%list
    ∧ t_id <$> teams s' = ((t_id <$> teams s) ++ nt)%list
    ∧ b_id <$> boards s' = ((b_id <$> boards s) ++ nb)%list
    ∧ k_id <$> tasks s' = ((k_id <$> tasks s) ++ nk)%list
    ∧ length nu + length nt + length nb + length nk <= 1.
Proof.
  simpl. by_effect o s E.
  - destruct E as [E|(? & ? & E & _)]; rewrite E; [unchanged|].
    exists [f], [], [], []. rewrite fmap_app, !app_nil_r. simpl. repeat split; lia.
  - destruct E as [E|(? & ? & _ & E)]; rewrite E; [unchanged|].
    rewrite fmap_alter_same by done. unchanged.
  - destruct E as [E|(? & ? & ? & E & _)]; rewrite E; [unchanged|].
    exists [], [f], [], []. rewrite fmap_app, !app_nil_r. simpl. repeat split; lia.
  - destruct E as [E|(? & ? & _ & _ & E & _)]; rewrite E; [unchanged|].
    rewrite fmap_alter_same by done. unchanged.
  - destruct E as [E|(? & ? & ? & _ & _ & _ & E & _)]; rewrite E; [unchanged|].
    rewrite fmap_alter_same by done. unchanged.
  - destruct E as [E|(? & ? & ? & _ & _ & _ & E & _)]; rewrite E; [unchanged|].
    rewrite fmap_alter_same by done. unchanged.
  - destruct E as [E|(? & ? & ? & ? & E & _)]; rewrite E; [unchanged|].
    exists [], [], [f], []. rewrite fmap_app, !app_nil_r. simpl. repeat split; lia.
  - destruct E as [E|(? & ? & ? & _ & _ & _ & _ & E & _)]; rewrite E; [unchanged|].
    rewrite fmap_alter_same by done. unchanged.
  - destruct E as [E|(? & ? & ? & ? & ? & E & _)]; rewrite E; [unchanged|].
    exists [], [], [], [f]. rewrite fmap_app, !app_nil_r. simpl. repeat split; lia.
  - destruct E as [E|(? & ? & _ & E)]; rewrite E; [unchanged|].
    rewrite fmap_alter_same by done. unchanged.
Qed.

(** X11.  A board keeps its place, id, name, team and creation time through
    every operation, and a board that is CLOSED is not changed at all:
    nothing reopens it or stamps a new end time. *)
Theorem closed_board_is_final o s k b :
  boards s !! k = Some b ->
  ∃ b', boards (exec uuid_ok o s) !! k = Some b'
        ∧ b_id b' = b_id b ∧ b_name b' = b_name b ∧ b_team_id b' = b_team_id b
        ∧ b_creation_time b' = b_creation_time b
        ∧ (b_status b = "CLOSED" -> b' = b).
Proof.
  intros Hb. by_effect o s E; try (by exists b).
  - destruct E as [->|(? & ? & ? & ? & -> & _)]; [by exists b|].
    exists b. by rewrite (lookup_app_l_Some _ _ _ _ Hb).
  - destruct E as [->|(bid & j & b0 & _ & _ & Hj & Hopen & -> & _)]; [by exists b|].
    destruct (decide (j = k)) as [->|Hne].
    + rewrite Hb in Hj. injection Hj as <-.
      exists (close n b). by rewrite list_lookup_alter_eq, Hb.
    + exists b. by rewrite list_lookup_alter_ne.
Qed.

(** X12.  [update_user] can change display names only: the ids, names and
    creation times of the users, and the other three collections, are
    after the call what they were before. *)
Theorem update_user_keeps_identity req s :
  let s' := (update_user uuid_ok req s).2 in
  u_id <$> users s' = u_id <$> users s
  ∧ u_name <$> users s' = u_name <$> users s
  ∧ u_creation_time <$> users s' = u_creation_time <$> users s
  ∧ teams s' = teams s ∧ boards s' = boards s ∧ tasks s' = tasks s.
Proof.
  simpl.
  destruct (update_user_effect uuid_ok req s) as (E1 & E2 & E3 & [E|(i & d & _ & E)]);
    simpl in *; rewrite E1, E2, E3, E; [done|].
  by rewrite !fmap_alter_same.
Qed.

End Monotone.

Lemma closed_board_is_final_witness :
  ∃ b', boards (exec canonical_uuid
                  (CloseBoard "2025-01-01T10:00:00" (Some B2)) demo_db) !! 1 = Some b'
        ∧ b_end_time b' = Some "2025-01-01T09:07:00".
Proof.
  assert (boards demo_db !! 1 =
          Some (mk_board B2 "Done" "" T1 "2025-01-01T09:05:00" "CLOSED"
                         (Some "2025-01-01T09:07:00"))) as Hb
    by (vm_compute; reflexivity).
  destruct (closed_board_is_final canonical_uuid
              (CloseBoard "2025-01-01T10:00:00" (Some B2)) demo_db 1 _ Hb)
    as (b' & Hb' & _ & _ & _ & _ & Hsame).
  exists b'. split; [exact Hb'|]. by rewrite (Hsame eq_refl).
Defined.

(** ** The team operations in detail *)

Section TeamOperations.

Import Teams.

Lemma find_index_Some {A : Type} (p : A -> bool) (l : list A) (i : nat) :
  find_index p l = Some i -> ∃ x, l !! i = Some x ∧ p x = true.
Proof.
  revert i. induction l as [|a l IH]; intros i; simpl; [done|].
  destruct (p a) eqn:Hp.
  - intros [= <-]. by exists a.
  - destruct (find_index p l) as [k|] eqn:Hk; simpl; [|done].
    intros [= <-]. by apply IH.
Qed.

(** X13.  The admin cannot be removed: when the admin of the team is among the
    ids of the request, [remove_users_from_team] raises and removes
    nobody, not even the other ids of the request. *)
Theorem remove_admin_rejected req s team_id i t :
  ur_id req = Some team_id -> team_id ≠ "" ->
  team_index team_id (teams s) = Some i -> teams s !! i = Some t ->
  t_admin t ∈ ur_users req ->
  remove_users_from_team req s = (Raise (ValueError "Cannot remove team admin from team"), s).
Proof.
  intros Hid Hne Hi Ht Hadm. unfold remove_users_from_team. unfold_monad.
  apply truthy_spec in Hne. rewrite Hid, Hne, Hi, Ht. simpl.
  apply elem_str_spec in Hadm. by rewrite Hadm.
Qed.



(** X16.  The users of the request are checked before the team is looked up:
    when some id of the request is no user, [add_users_to_team] raises
    with the first such id in the message and adds nobody, whether the
    team exists or not. *)
Theorem add_users_unknown_user req s team_id (before : list string) u after :
  ur_id req = Some team_id -> team_id ≠ "" ->
  ur_users req = (before ++ u :: after)%list ->
  (∀ v, v ∈ before -> user_exists v (users s) = true) ->
  user_exists u (users s) = false ->
  add_users_to_team req s =
    (Raise (ValueError ("User " +:+ u +:+ " does not exist")), s).
Proof.
  intros Hid Hne Hreq Hbefore Hu. unfold add_users_to_team. unfold_monad.
  apply truthy_spec in Hne. rewrite Hid, Hne. simpl.
  assert (first_missing (ur_users req) (users s) = Some u) as ->; [|done].
  rewrite Hreq. unfold first_missing. clear Hreq.
  assert (∀ v, user_exists v (users s) =
               bool_decide (v ∈ (list_to_set (u_id <$> users s) : gset string))) as Hdec.
  { intros v. apply eq_true_iff_eq. rewrite bool_decide_eq_true, elem_of_list_to_set.
    apply user_exists_spec. }
  induction before as [|v before IH]; simpl.
  - by rewrite <- Hdec, Hu.
  - rewrite <- Hdec, (Hbefore v) by apply list_elem_of_here. simpl.
    apply IH. intros w Hw. apply Hbefore. by apply list_elem_of_further.
Qed.


End TeamOperations.

Lemma remove_admin_rejected_witness :
  Teams.remove_users_from_team (Teams.mk_users_request (Some T1) [U2; U1]) demo_db =
    (Raise (ValueError "Cannot remove team admin from team"), demo_db).
Proof.
  assert (T1 ≠ "") as Hne by (vm_compute; discriminate).
  assert (Teams.team_index T1 (teams demo_db) = Some 0) as Hi by (vm_compute; reflexivity).
  assert (teams demo_db !! 0 =
          Some (mk_team T1 "dev" "Developers" U1 [U1; U2] "2025-01-01T09:02:00")) as Ht
    by (vm_compute; reflexivity).
  apply (remove_admin_rejected (Teams.mk_users_request (Some T1) [U2; U1])
           demo_db T1 0 _ eq_refl Hne Hi Ht).
  apply list_elem_of_lookup. exists 1. reflexivity.
Defined.



Lemma add_users_unknown_user_witness :
  Teams.add_users_to_team
    (Teams.mk_users_request (Some "no-such-team") [U1; "nobody"; "no-one"]) demo_db =
    (Raise (ValueError "User nobody does not exist"), demo_db).
Proof.
  assert ("no-such-team" ≠ "") as Hne by discriminate.
  apply (add_users_unknown_user
           (Teams.mk_users_request (Some "no-such-team") [U1; "nobody"; "no-one"])
           demo_db "no-such-team" [U1] "nobody" ["no-one"] eq_refl Hne eq_refl).
  - intros v Hv. by_cases_on_list Hv.
  - vm_compute. reflexivity.
Defined.


(** ** Team names stay unique *)

Section TeamNames.

Import User Teams ProjectBoard.

Variable uuid_ok : string -> bool.

Ltac by_effect o s E :=
  destruct o as [f n r|r|f n r|r|r|r|f n r|n i|f n r|r]; simpl;
  [ pose proof (create_user_effect f n r s) as E
  | pose proof (update_user_effect uuid_ok r s) as E
  | pose proof (create_team_effect f n r s) as E
  | pose proof (update_team_effect r s) as E
  | pose proof (add_users_to_team_effect r s) as E
  | pose proof (remove_users_from_team_effect r s) as E
  | pose proof (create_board_effect f n r s) as E
  | pose proof (close_board_effect n i s) as E
  | pose proof (add_task_effect f n r s) as E
  | pose proof (update_task_status_effect r s) as E ];
  simpl in E; destruct E as (E1 & E2 & E3 & E); rewrite ?E1, ?E2, ?E3.

Lemma renamed_nodup name description admin team_id i (l : list team) :
  NoDup (t_id <$> l) -> NoDup (t_name <$> l) ->
  team_index team_id l = Some i ->
  (name ≠ "" -> ∀ t, t ∈ l -> t_name t = name -> t_id t = team_id) ->
  NoDup (t_name <$> alter (updated_team name description admin) i l).
Proof.
  intros Hids Hnames Hi Huniq.
  destruct (truthy name) eqn:Hn.
  2:{ rewrite fmap_alter_same; [done|]. intros t. unfold updated_team. simpl.
      by rewrite Hn. }
  apply truthy_spec in Hn. specialize (Huniq Hn).
  apply find_index_Some in Hi as (ti & Hti & Hid%String.eqb_eq).
  assert (∀ k tk, k ≠ i -> l !! k = Some tk -> t_name tk ≠ name) as Hother.
  { intros k tk Hk Htk Heq. apply Hk.
    assert (t_id tk = team_id) as Hidk
      by (apply Huniq; [by eapply list_elem_of_lookup_2|done]).
    eapply (proj1 (NoDup_alt _) Hids k i (t_id tk)).
    - by rewrite list_lookup_fmap, Htk.
    - rewrite list_lookup_fmap, Hti. simpl. congruence. }
  assert (∀ j x, (t_name <$> alter (updated_team name description admin) i l) !! j = Some x ->
                 (j = i ∧ x = name)
                 ∨ (j ≠ i ∧ ∃ tj, l !! j = Some tj ∧ t_name tj = x)) as Hcases.
  { intros j x. rewrite list_lookup_fmap. destruct (decide (j = i)) as [->|Hne].
    - rewrite list_lookup_alter_eq, Hti. simpl.
      apply truthy_spec in Hn. rewrite Hn. intros [= <-]. by left.
    - rewrite list_lookup_alter_ne by done.
      destruct (l !! j) as [tj|] eqn:Htj; simpl; [|done].
      intros [= <-]. right. split; [done|]. by exists tj. }
  apply NoDup_alt. intros j k x Hj Hk.
  apply Hcases in Hj as [[-> ->]|[Hj (tj & Htj & <-)]];
    apply Hcases in Hk as [[-> Hx]|[Hk (tk & Htk & Hx)]]; try done.
  - by destruct (Hother k tk Hk Htk).
  - by destruct (Hother j tj Hj Htj).
  - eapply (proj1 (NoDup_alt _) Hnames j k (t_name tj)).
    + by rewrite list_lookup_fmap, Htj.
    + rewrite list_lookup_fmap, Htk. simpl. congruence.
Qed.

(** X18.  When the stored teams have different ids and different names, they
    have different names after any operation: [create_team] refuses a
    name that is taken, and [update_team] refuses the name of another
    team. *)
Theorem team_names_stay_unique o s :
  NoDup (t_id <$> teams s) -> NoDup (t_name <$> teams s) ->
  NoDup (t_name <$> teams (exec uuid_ok o s)).
Proof.
  intros Hids Hnames. by_effect o s E; try done.
  - destruct E as [->|(name & d & a & -> & _ & _ & Hnew)]; [done|].
    rewrite fmap_app. apply NoDup_app. repeat split; [done| |apply NoDup_singleton].
    intros x (t & -> & Ht)%list_elem_of_fmap Hx%list_elem_of_singleton.
    by apply (Hnew t).
  - destruct E as [->|(tid & i & _ & Hi & -> & Huniq & _)]; [done|].
    by eapply renamed_nodup.
  - destruct E as [->|(? & ? & ? & _ & _ & _ & -> & _)]; [done|].
    by rewrite fmap_alter_same.
  - destruct E as [->|(? & ? & ? & _ & _ & _ & -> & _)]; [done|].
    by rewrite fmap_alter_same.
Qed.

End TeamNames.

(** Renaming "qa" to "dev" is refused, so the names stay "dev", "qa". *)
Lemma team_names_stay_unique_witness :
  let o := UpdateTeam (Teams.mk_update_team_request (Some T2)
                         (Teams.mk_team_fields "dev" "" "")) in
  t_name <$> teams (exec canonical_uuid o demo_db) = ["dev"; "qa"]
  ∧ NoDup (t_name <$> teams (exec canonical_uuid o demo_db)).
Proof.
  split; [vm_compute; reflexivity|].
  apply team_names_stay_unique.
  - assert (t_id <$> teams demo_db = [T1; T2]) as -> by (vm_compute; reflexivity).
    apply NoDup_cons. split; [|apply NoDup_singleton].
    intros H. apply list_elem_of_singleton in H. vm_compute in H. discriminate H.
  - assert (t_name <$> teams demo_db = ["dev"; "qa"]) as -> by (vm_compute; reflexivity).
    apply NoDup_cons. split; [|apply NoDup_singleton].
    intros H. apply list_elem_of_singleton in H. discriminate H.
Defined.

(** ** Reading back what was stored *)

Section ReadBack.

Import User Teams ProjectBoard.

Variable uuid_ok : string -> bool.

Lemma users_by_id_snoc (l : list user) (a : user) :
  users_by_id (l ++ [a]) = <[u_id a := a]> (users_by_id l).
Proof. unfold users_by_id. by rewrite foldl_app. Qed.

Lemma users_by_id_lookup (l : list user) (m : string) :
  match users_by_id l !! m with
  | Some u => u ∈ l ∧ u_id u = m
  | None => m ∉ u_id <$> l
  end.
Proof.
  induction l as [|a l IH] using rev_ind.
  - unfold users_by_id. simpl. rewrite lookup_empty. apply not_elem_of_nil.
  - rewrite users_by_id_snoc. destruct (decide (u_id a = m)) as [<-|Hne].
    + rewrite lookup_insert_eq. split; [|done].
      apply elem_of_app. right. apply list_elem_of_here.
    + rewrite lookup_insert_ne by done.
      destruct (users_by_id l !! m) as [u|].
      * destruct IH as [Hin Hid]. split; [|done]. apply elem_of_app. by left.
      * rewrite fmap_app. intros [Hin|Hin%list_elem_of_singleton]%elem_of_app; [done|].
        by destruct Hne.
Qed.

(** X19.  In a state the service reaches, [list_team_users] skips nobody: it
    returns one entry for each member of the team, in the order of the
    member list, and each entry shows the name and the display name of a
    stored user with that id. *)
Theorem list_team_users_lists_members s team_id t :
  reachable uuid_ok s -> team_id ≠ "" ->
  List.find (fun t => String.eqb (t_id t) team_id) (teams s) = Some t ->
  ∃ l, list_team_users (Some team_id) s = (Return l, s)
       ∧ mi_id <$> l = t_members t
       ∧ ∀ e, e ∈ l ->
           ∃ u, u ∈ users s ∧ u_id u = mi_id e ∧ u_name u = mi_name e
                ∧ u_display_name u = mi_display_name e.
Proof.
  intros Hs Hne Hfind.
  assert (Forall (fun m => user_exists m (users s) = true) (t_members t)) as Hex.
  { apply reachable_refs_ok in Hs as (Hm & _ & _). rewrite Forall_forall in Hm.
    apply find_some in Hfind as [Hin%list_elem_of_In _].
    specialize (Hm t Hin). by inversion Hm. }
  unfold list_team_users. unfold_monad.
  apply truthy_spec in Hne. rewrite Hne. simpl. rewrite Hfind. simpl.
  eexists. split; [reflexivity|].
  clear Hfind.
  set (entry := fun user_id : string =>
         (fun user => mk_member_info (u_id user) (u_name user) (u_display_name user))
           <$> users_by_id (users s) !! user_id).
  induction (t_members t) as [|m ms IH]; [by split; [|intros e He; inversion He]|].
  inversion Hex as [|? ? Hm Hms]; subst. destruct (IH Hms) as [IH1 IH2]. clear IH.
  pose proof (users_by_id_lookup (users s) m) as Hl.
  change (omap entry (m :: ms))
    with (match entry m with Some y => y :: omap entry ms | None => omap entry ms end).
  destruct (users_by_id (users s) !! m) as [u|] eqn:Hu.
  - assert (entry m = Some (mk_member_info (u_id u) (u_name u) (u_display_name u))) as ->
      by (unfold entry; by rewrite Hu).
    destruct Hl as [Hin Hid]. split.
    + rewrite fmap_cons, IH1. simpl. by rewrite Hid.
    + intros e [->|He]%elem_of_cons; [by exists u|]. by apply IH2.
  - apply user_exists_spec in Hm. by destruct Hl.
Qed.

Lemma find_snoc_new {A : Type} (p : A -> bool) (l : list A) (a : A) :
  (∀ x, x ∈ l -> p x = false) -> p a = true -> List.find p (l ++ [a]) = Some a.
Proof.
  intros Hl Ha. induction l as [|x l IH]; simpl; [by rewrite Ha|].
  rewrite (Hl x) by apply list_elem_of_here.
  apply IH. intros y Hy. apply Hl. by apply list_elem_of_further.
Qed.

Lemma create_user_inv fresh now req s id s' :
  create_user fresh now req s = (Return id, s') ->
  let name := strip (cu_name req) in
  let display_name := strip (cu_display_name req) in
  id = fresh
  ∧ s' = mk_db (users s ++ [mk_user fresh name
                                    (if truthy display_name then display_name else name) now])
               (teams s) (boards s) (tasks s).
Proof.
  unfold create_user, validate_name, validate_display_name, validate_required_field,
    validate_string_length, _check_name_uniqueness.
  unfold_monad. branches; intros [= <- <-]; try done.
  exfalso.
  match goal with
  | H1 : truthy (cu_display_name req) = false,
    H2 : truthy (strip (cu_display_name req)) = true |- _ =>
      unfold truthy in H1; apply negb_false_iff, String.eqb_eq in H1;
      rewrite H1 in H2; discriminate H2
  end.
Qed.

(** X20.  A user just created can be read back: when [create_user] returns
    and the new id is a well-formed uuid that no stored user has,
    [describe_user] with the returned id gives the stripped name, the
    stripped display name (the name, when the request gave none) and the
    creation time of the call. *)
Theorem create_then_describe fresh now req s id s' :
  create_user fresh now req s = (Return id, s') ->
  fresh ≠ "" -> strip fresh = fresh -> uuid_ok fresh = true ->
  (∀ u, u ∈ users s -> u_id u ≠ fresh) ->
  let name := strip (cu_name req) in
  let display_name := strip (cu_display_name req) in
  describe_user uuid_ok id s' =
    (Return (mk_user_info name (if truthy display_name then display_name else name) now), s').
Proof.
  intros Hrun Hne Hstrip Hok Hfresh name display_name.
  apply create_user_inv in Hrun as [-> ->]. fold name display_name.
  unfold describe_user, validate_uuid, validate_required_field, _find_user_by_id.
  unfold_monad. rewrite Hstrip. apply truthy_spec in Hne. rewrite Hne. simpl.
  rewrite Hok. simpl.
  rewrite (find_snoc_new (fun u => String.eqb (u_id u) fresh)); [done| |apply String.eqb_refl].
  intros u Hu. apply String.eqb_neq. by apply Hfresh.
Qed.

(** X21.  What the caller learns when [create_user] rejects the input: the
    messages of the validators never get out.  A name that is empty, too
    long or ill-formed, and a display name that is too long, all end in
    [ValidationError] with the one message "Failed to create user". *)
Theorem create_user_invalid_input fresh now req s :
  let name := strip (cu_name req) in
  let display_name := strip (cu_display_name req) in
  name = "" ∨ 64 < String.length name ∨ match_name name = false
  ∨ 64 < String.length display_name ->
  create_user fresh now req s = (Raise (ValidationError "Failed to create user"), s).
Proof.
  intros name display_name Hbad.
  unfold create_user, validate_name, validate_display_name, validate_required_field,
    validate_string_length, _check_name_uniqueness.
  fold name display_name. unfold_monad.
  destruct (truthy name) eqn:Hn; simpl; [|done].
  unfold longer_than, MAX_NAME_LENGTH, MAX_DISPLAY_NAME_LENGTH.
  destruct (Nat.ltb_spec 64 (String.length name)) as [?|Hl]; simpl; [done|].
  destruct (match_name name) eqn:Hm; simpl; [|done].
  apply truthy_spec in Hn.
  destruct Hbad as [?|[?|[?|Hd]]]; [done|lia|done|].
  assert (truthy (cu_display_name req) = true) as ->.
  { apply truthy_spec. intros Heq. unfold display_name in Hd. rewrite Heq in Hd.
    simpl in Hd. lia. }
  simpl. destruct (Nat.ltb_spec 64 (String.length display_name)) as [_|?]; [done|lia].
Qed.

(** X22.  A name that is taken is refused with [DuplicateResourceError], and
    nothing is stored. *)
Theorem create_user_duplicate_name fresh now req s u :
  let name := strip (cu_name req) in
  let display_name := strip (cu_display_name req) in
  name ≠ "" -> String.length name <= 64 -> match_name name = true ->
  String.length display_name <= 64 ->
  u ∈ users s -> u_name u = name ->
  create_user fresh now req s =
    (Raise (DuplicateResourceError "User name must be unique"), s).
Proof.
  intros name display_name Hn Hl Hm Hd Hu Hname.
  unfold create_user, validate_name, validate_display_name, validate_required_field,
    validate_string_length, _check_name_uniqueness.
  fold name display_name. unfold_monad.
  apply truthy_spec in Hn. rewrite Hn. simpl.
  unfold longer_than, MAX_NAME_LENGTH, MAX_DISPLAY_NAME_LENGTH.
  destruct (Nat.ltb_spec 64 (String.length name)) as [?|_]; [lia|]. simpl.
  rewrite Hm. simpl.
  destruct (Nat.ltb_spec 64 (String.length display_name)) as [?|_]; [lia|].
  assert (∃ v, List.find (fun u => String.eqb (u_name u) name) (users s) = Some v) as [v Hv].
  { destruct (List.find _ (users s)) as [v|] eqn:Hf; [by exists v|].
    apply list_elem_of_In in Hu. apply (find_none _ _ Hf) in Hu.
    apply String.eqb_neq in Hu. by destruct Hu. }
  destruct (truthy (cu_display_name req)); simpl; by rewrite Hv.
Qed.

End ReadBack.

Lemma list_team_users_lists_members_witness :
  Teams.list_team_users (Some T1) demo_db =
    (Return [ Teams.mk_member_info U1 "alice" "alice"; Teams.mk_member_info U2 "bob" "Bob" ],
     demo_db)
  ∧ ∃ l, Teams.list_team_users (Some T1) demo_db = (Return l, demo_db)
         ∧ Teams.mi_id <$> l = [U1; U2]
         ∧ ∀ e, e ∈ l ->
             ∃ u, u ∈ users demo_db ∧ u_id u = Teams.mi_id e ∧ u_name u = Teams.mi_name e
                  ∧ u_display_name u = Teams.mi_display_name e.
Proof.
  split; [vm_compute; reflexivity|].
  assert (T1 ≠ "") as Hne by (vm_compute; discriminate).
  assert (List.find (fun t => String.eqb (t_id t) T1) (teams demo_db) =
          Some (mk_team T1 "dev" "Developers" U1 [U1; U2] "2025-01-01T09:02:00")) as Hf
    by (vm_compute; reflexivity).
  exact (list_team_users_lists_members canonical_uuid demo_db T1 _ demo_db_reachable Hne Hf).
Defined.

(** A third user, created with spaces around the name and no display
    name, and read back. *)
Lemma create_then_describe_witness :
  let fresh := "33333333-3333-4333-8333-333333333333" in
  let s' := (User.create_user fresh "2025-01-01T10:00:00"
               (User.mk_create_user_request " carol " "") demo_db).2 in
  User.describe_user canonical_uuid fresh s' =
    (Return (User.mk_user_info "carol" "carol" "2025-01-01T10:00:00"), s').
Proof.
  intros fresh s'.
  assert (User.create_user fresh "2025-01-01T10:00:00"
            (User.mk_create_user_request " carol " "") demo_db = (Return fresh, s')) as Hrun
    by (vm_compute; reflexivity).
  apply (create_then_describe canonical_uuid fresh "2025-01-01T10:00:00"
           (User.mk_create_user_request " carol " "") demo_db fresh s' Hrun).
  - vm_compute. discriminate.
  - vm_compute. reflexivity.
  - vm_compute. reflexivity.
  - intros u Hu. by_cases_on_list Hu.
Defined.

Lemma create_user_invalid_input_witness :
  User.create_user K2 "2025-01-01T10:00:00"
    (User.mk_create_user_request "carol smith" "") demo_db =
    (Raise (ValidationError "Failed to create user"), demo_db).
Proof.
  apply (create_user_invalid_input K2 "2025-01-01T10:00:00"
           (User.mk_create_user_request "carol smith" "") demo_db).
  right. right. left. vm_compute. reflexivity.
Defined.

Lemma create_user_duplicate_name_witness :
  User.create_user K2 "2025-01-01T10:00:00"
    (User.mk_create_user_request "bob" "Robert") demo_db =
    (Raise (DuplicateResourceError "User name must be unique"), demo_db).
Proof.
  apply (create_user_duplicate_name K2 "2025-01-01T10:00:00"
           (User.mk_create_user_request "bob" "Robert") demo_db
           (mk_user U2 "bob" "Bob" "2025-01-01T09:01:00")).
  - vm_compute. discriminate.
  - vm_compute. lia.
  - vm_compute. reflexivity.
  - vm_compute. lia.
  - apply list_elem_of_lookup. exists 1. vm_compute. reflexivity.
  - vm_compute. reflexivity.
Defined.

(** ** Boards and tasks, read back and defaulted *)

Section BoardsReadBack.

Import User Teams ProjectBoard.

Variable uuid_ok : string -> bool.

Lemma create_board_inv fresh now req s id s' :
  create_board fresh now req s = (Return id, s') ->
  id = fresh
  ∧ s' = mk_db (users s) (teams s)
               (boards s ++ [mk_board fresh (strip (cb_name req)) (strip (cb_description req))
                                      (strip (cb_team_id req))
                                      (time_or_now (cb_creation_time req) now) "OPEN" None])
               (tasks s).
Proof.
  unfold create_board. unfold_monad. branches; intros [= <- <-]; done.
Qed.

(** X23.  A board just created is listed: after [create_board] returns,
    [list_boards] gives, for the team of the new board, the boards it
    gave before followed by the new id and name, and for every other
    team what it gave before. *)
Theorem create_then_list_boards fresh now req s id s' team_id :
  create_board fresh now req s = (Return id, s') ->
  team_id ≠ "" ->
  ∃ l, list_boards (Some team_id) s = (Return l, s)
       ∧ list_boards (Some team_id) s' =
           (Return (l ++ if bool_decide (team_id = strip (cb_team_id req))
                         then [(id, strip (cb_name req))] else [])%list, s').
Proof.
  intros Hrun Hne. apply create_board_inv in Hrun as [-> ->].
  unfold list_boards. unfold_monad. apply truthy_spec in Hne. rewrite Hne. simpl.
  eexists. split; [reflexivity|]. f_equal. f_equal.
  rewrite filter_app, fmap_app. f_equal.
  rewrite filter_cons, filter_nil. simpl.
  destruct (decide (strip (cb_team_id req) = team_id)) as [<-|Hneq].
  - by rewrite bool_decide_eq_true_2.
  - by rewrite bool_decide_eq_false_2.
Qed.

Lemma add_users_to_team_inv req s s' :
  add_users_to_team req s = (Return tt, s') ->
  ∃ (team_id : string) (i : nat) (t : team),
    ur_id req = Some team_id ∧ team_index team_id (teams s) = Some i
    ∧ teams s !! i = Some t
    ∧ s' = mk_db (users s)
                 (alter (set_members
                           (elements (list_to_set (t_members t) ∪ list_to_set (ur_users req)
                                      : gset string))) i (teams s))
                 (boards s) (tasks s)
    ∧ ∀ u, u ∈ ur_users req -> user_exists u (users s) = true.
Proof.
  unfold add_users_to_team, members_at. unfold_monad.
  branches; intros [= <-]; try done.
  match goal with H : team_index _ _ = Some ?n |- _ =>
    destruct (find_index_Some _ _ _ H) as (t & Ht & Hid) end.
  eexists _, _, t. split; [reflexivity|]. split; [eassumption|]. split; [done|].
  rewrite Ht. simpl. split; [done|]. by apply first_missing_spec.
Qed.

(** X24.  A user just added sees the team: after [add_users_to_team] returns,
    [get_user_teams] for any id of the request (a well-formed uuid)
    returns a list that holds the team of the request. *)
Theorem added_user_sees_team req s s' u :
  add_users_to_team req s = (Return tt, s') ->
  u ∈ ur_users req -> u ≠ "" -> strip u = u -> uuid_ok u = true ->
  ∃ l t, get_user_teams uuid_ok u s' = (Return l, s')
         ∧ t ∈ teams s' ∧ Some (t_id t) = ur_id req ∧ u ∈ t_members t
         ∧ (t_name t, t_description t, t_creation_time t) ∈ l.
Proof.
  intros Hrun Hu Hne Hstrip Hok.
  apply add_users_to_team_inv in Hrun as (tid & i & t & Hid & Hi & Ht & -> & Hex).
  destruct (find_index_Some _ _ _ Hi) as (t0 & Ht0 & Htid%String.eqb_eq).
  rewrite Ht in Ht0. injection Ht0 as <-.
  set (members := elements (list_to_set (t_members t) ∪ list_to_set (ur_users req)
                            : gset string)).
  assert (u ∈ members) as Hmem.
  { apply elem_of_elements, elem_of_union. right. by apply elem_of_list_to_set. }
  assert (set_members members t ∈ alter (set_members members) i (teams s)) as Hin.
  { apply list_elem_of_lookup. exists i. by rewrite list_lookup_alter_eq, Ht. }
  assert (∃ v, List.find (fun x => String.eqb (u_id x) u) (users s) = Some v) as [v Hv].
  { specialize (Hex u Hu). unfold user_exists in Hex.
    destruct (List.find _ (users s)) as [v|] eqn:Hf; [by exists v|].
    apply existsb_true_iff in Hex as (x & Hx%list_elem_of_In & Hxe).
    apply (find_none _ _ Hf) in Hx. simpl in Hx. congruence. }
  unfold get_user_teams, validate_uuid, validate_required_field, _find_user_by_id.
  unfold_monad. rewrite Hstrip. apply truthy_spec in Hne. rewrite Hne. simpl.
  rewrite Hok. simpl. rewrite Hv. simpl.
  eexists _, (set_members members t). split; [reflexivity|].
  split; [done|]. split; [by rewrite Hid, <- Htid|]. split; [done|].
  apply list_elem_of_fmap. exists (set_members members t). split; [done|].
  by apply list_elem_of_filter.
Qed.

Lemma no_open_board (l : list board) :
  Forall (fun x => b_status x ≠ "OPEN") l -> filter (fun x => b_status x = "OPEN") l = [].
Proof.
  induction 1 as [|x l Hx _ IH]; [done|]. by rewrite filter_cons_False.
Qed.

Lemma last_open_board (before after : list board) (b : board) :
  b_status b = "OPEN" -> Forall (fun x => b_status x ≠ "OPEN") after ->
  last (filter (fun x => b_status x = "OPEN") (before ++ b :: after)%list) = Some b.
Proof.
  intros Hb Hafter. rewrite filter_app, filter_cons_True by done.
  rewrite (no_open_board after Hafter). apply last_snoc.
Qed.

(** X25.  Without a [board_id] (absent or empty) the task goes to the last
    OPEN board of the whole board collection, whatever its team: when
    the fields pass their checks and the title is new on that board,
    [add_task] returns and the stored task has the id of that board; and
    when no board is OPEN, the call raises. *)
Theorem add_task_default_board fresh now req s :
  let title := strip (at_title req) in
  let description := strip (at_description req) in
  let user_id := strip (at_user_id req) in
  truthy_opt (at_board_id req) = false ->
  title ≠ "" -> String.length title <= 64 -> String.length description <= 128 ->
  user_id ≠ "" ->
  (∀ before b after,
     boards s = (before ++ b :: after)%list ->
     b_status b = "OPEN" -> Forall (fun x => b_status x ≠ "OPEN") after ->
     (∀ t, t ∈ tasks s -> k_board_id t = b_id b -> k_title t ≠ title) ->
     add_task fresh now req s =
       (Return fresh,
        mk_db (users s) (teams s) (boards s)
              (tasks s ++ [mk_task fresh title description user_id (b_id b)
                                   (time_or_now (at_creation_time req) now) "OPEN"])))
  ∧ (Forall (fun x => b_status x ≠ "OPEN") (boards s) ->
     add_task fresh now req s =
       (Raise (ValueError "No open boards available to add a task"), s)).
Proof.
  intros title description user_id Hid Ht Hlt Hld Hu.
  assert (∀ r, resolve_board (at_board_id req) (boards s) s = r ->
               add_task fresh now req s =
               match r with
               | (Return board, s0) =>
                   if existsb (fun t => String.eqb (k_title t) title)
                              (board_tasks (b_id board) (tasks s0))
                   then (Raise (ValueError "Task title must be unique within the board"), s0)
                   else (Return fresh,
                         mk_db (users s0) (teams s0) (boards s0)
                               (tasks s0 ++ [mk_task fresh title description user_id
                                                     (b_id board)
                                                     (time_or_now (at_creation_time req) now)
                                                     "OPEN"]))
               | (Raise e, s0) => (Raise e, s0)
               end) as Hrun.
  { intros r <-. unfold add_task. fold title description user_id.
    apply truthy_spec in Ht. apply truthy_spec in Hu. rewrite Ht, Hu. simpl.
    unfold longer_than.
    destruct (Nat.ltb_spec 64 (String.length title)) as [?|_]; [lia|].
    destruct (Nat.ltb_spec 128 (String.length description)) as [?|_]; [lia|].
    rewrite andb_false_r. unfold_monad. simpl.
    destruct (resolve_board (at_board_id req) (boards s) s) as [[board|e] s0]; [|done].
    by destruct (existsb _ _). }
  split.
  - intros before b after Hboards Hopen Hafter Hnew.
    rewrite (Hrun (Return b, s)).
    + assert (existsb (fun t => String.eqb (k_title t) title)
                (board_tasks (b_id b) (tasks s)) = false) as ->; [|done].
      apply existsb_false_iff. intros t [Hb Hin]%list_elem_of_filter.
      apply String.eqb_neq. by apply Hnew.
    + unfold resolve_board. rewrite Hid, Hboards. unfold_monad.
      by rewrite last_open_board.
  - intros Hnone. rewrite (Hrun (Raise (ValueError "No open boards available to add a task"), s));
      [done|].
    unfold resolve_board. rewrite Hid. unfold_monad.
    by rewrite (no_open_board (boards s) Hnone).
Qed.

End BoardsReadBack.

Lemma create_then_list_boards_witness :
  let fresh := "bbbbbbbb-0000-4000-8000-000000000003" in
  let req := ProjectBoard.mk_create_board_request "Retro" "" T1 None in
  let s' := (ProjectBoard.create_board fresh "2025-01-01T10:00:00" req demo_db).2 in
  ProjectBoard.list_boards (Some T1) s' =
    (Return [(B1, "Sprint"); (B2, "Done"); (fresh, "Retro")], s').
Proof.
  intros fresh req s'.
  assert (ProjectBoard.create_board fresh "2025-01-01T10:00:00" req demo_db =
          (Return fresh, s')) as Hrun by (vm_compute; reflexivity).
  assert (T1 ≠ "") as Hne by (vm_compute; discriminate).
  destruct (create_then_list_boards fresh "2025-01-01T10:00:00" req demo_db fresh s' T1
              Hrun Hne) as (l & Hl & Hl').
  assert (ProjectBoard.list_boards (Some T1) demo_db =
          (Return [(B1, "Sprint"); (B2, "Done")], demo_db)) as Hold
    by (vm_compute; reflexivity).
  rewrite Hold in Hl. apply (f_equal fst) in Hl. cbn [fst] in Hl.
  injection Hl as <-. exact Hl'.
Defined.

Lemma added_user_sees_team_witness :
  let req := Teams.mk_users_request (Some T2) [U1] in
  let s' := (Teams.add_users_to_team req demo_db).2 in
  ∃ l t, User.get_user_teams canonical_uuid U1 s' = (Return l, s')
         ∧ t ∈ teams s' ∧ Some (t_id t) = Some T2 ∧ U1 ∈ t_members t
         ∧ (t_name t, t_description t, t_creation_time t) ∈ l.
Proof.
  intros req s'.
  assert (Teams.add_users_to_team req demo_db = (Return tt, s')) as Hrun
    by (vm_compute; reflexivity).
  apply (added_user_sees_team canonical_uuid req demo_db s' U1 Hrun).
  - apply list_elem_of_here.
  - vm_compute. discriminate.
  - vm_compute. reflexivity.
  - vm_compute. reflexivity.
Defined.

(** Without a [board_id] the task goes to "Sprint", the last OPEN board
    of [demo_db] ("Done", which comes after it, is CLOSED). *)
Lemma add_task_default_board_witness :
  let req := ProjectBoard.mk_add_task_request "t2" "" U2 None None in
  ProjectBoard.add_task K2 "2025-01-01T10:00:00" req demo_db =
    (Return K2,
     mk_db (users demo_db) (teams demo_db) (boards demo_db)
           (tasks demo_db ++ [mk_task K2 "t2" "" U2 B1 "2025-01-01T10:00:00" "OPEN"])).
Proof.
  intros req.
  assert (strip (ProjectBoard.at_title req) ≠ "") as H1 by (vm_compute; discriminate).
  assert (String.length (strip (ProjectBoard.at_title req)) <= 64) as H2
    by (vm_compute; lia).
  assert (String.length (strip (ProjectBoard.at_description req)) <= 128) as H3
    by (vm_compute; lia).
  assert (strip (ProjectBoard.at_user_id req) ≠ "") as H4 by (vm_compute; discriminate).
  pose proof (proj1 (add_task_default_board K2 "2025-01-01T10:00:00" req demo_db
                       eq_refl H1 H2 H3 H4)) as H.
  apply (H [] (mk_board B1 "Sprint" "" T1 "2025-01-01T09:04:00" "OPEN" None)
           [mk_board B2 "Done" "" T1 "2025-01-01T09:05:00" "CLOSED"
                     (Some "2025-01-01T09:07:00")]).
  - vm_compute. reflexivity.
  - reflexivity.
  - apply Forall_singleton. discriminate.
  - intros t Ht _. by_cases_on_list Ht.
Defined.

(** ** export_board *)

Section ExportBoard.

Import ProjectBoard.

Variable uuid_ok : string -> bool.

Lemma count_tasks_valid (l : list task) (c : task_counts) :
  Forall (fun t => k_status t ∈ valid_statuses) l ->
  count_tasks l c =
    inr (mk_task_counts
           (n_open c + length (filter (fun t => k_status t = "OPEN") l))
           (n_in_progress c + length (filter (fun t => k_status t = "IN_PROGRESS") l))
           (n_complete c + length (filter (fun t => k_status t = "COMPLETE") l))).
Proof.
  intros Hl. revert c. induction Hl as [|t l Ht _ IH]; intros c.
  - simpl. destruct c. simpl. by rewrite !Nat.add_0_r.
  - unfold valid_statuses in Ht. rewrite !filter_cons.
    change (count_tasks (t :: l) c)
      with (match count_status (k_status t) c with
            | None => inl (k_status t)
            | Some c' => count_tasks l c'
            end).
    apply elem_of_cons in Ht as [Ht|Ht];
      [rewrite Ht; simpl; rewrite IH; simpl; f_equal; f_equal; lia|].
    apply elem_of_cons in Ht as [Ht|Ht];
      [rewrite Ht; simpl; rewrite IH; simpl; f_equal; f_equal; lia|].
    apply elem_of_cons in Ht as [Ht|Ht];
      [rewrite Ht; simpl; rewrite IH; simpl; f_equal; f_equal; lia|].
    by apply elem_of_nil in Ht.
Qed.

Lemma status_partition (l : list task) :
  Forall (fun t => k_status t ∈ valid_statuses) l ->
  length (filter (fun t => k_status t = "OPEN") l)
  + length (filter (fun t => k_status t = "IN_PROGRESS") l)
  + length (filter (fun t => k_status t = "COMPLETE") l) = length l.
Proof.
  induction 1 as [|t l Ht _ IH]; [done|].
  unfold valid_statuses in Ht. rewrite !filter_cons.
  apply elem_of_cons in Ht as [Ht|Ht]; [rewrite Ht; simpl; lia|].
  apply elem_of_cons in Ht as [Ht|Ht]; [rewrite Ht; simpl; lia|].
  apply elem_of_cons in Ht as [Ht|Ht]; [rewrite Ht; simpl; lia|].
  by apply elem_of_nil in Ht.
Qed.

(** X26.  In a state the service reaches, [export_board] of a stored board
    always writes its file (the counting loop meets no unknown status),
    and the three numbers of the summary are the numbers of tasks of the
    board with status OPEN, IN_PROGRESS and COMPLETE, which add up to the
    total that the summary shows. *)
Theorem export_board_counts now board_id s b :
  reachable uuid_ok s -> board_id ≠ "" ->
  find_board board_id (boards s) = Some b ->
  let l := board_tasks board_id (tasks s) in
  let c := mk_task_counts (length (filter (fun t => k_status t = "OPEN") l))
                          (length (filter (fun t => k_status t = "IN_PROGRESS") l))
                          (length (filter (fun t => k_status t = "COMPLETE") l)) in
  export_board now (Some board_id) s =
    Exported (export_filename b board_id) (join_lines (export_content now b l c))
  ∧ n_open c + n_in_progress c + n_complete c = length l.
Proof.
  intros Hs Hne Hb l c.
  assert (Forall (fun t => k_status t ∈ valid_statuses) l) as Hvalid.
  { apply reachable_tasks_inv in Hs as [Hok _]. rewrite Forall_forall in Hok.
    apply Forall_forall. intros t [_ Ht]%list_elem_of_filter. by apply Hok. }
  split; [|by apply status_partition].
  unfold export_board. apply truthy_spec in Hne. rewrite Hne, Hb. simpl.
  fold l. by rewrite (count_tasks_valid l _ Hvalid).
Qed.

Lemma rstrip_chars (p : ascii -> bool) (s : string) :
  Forall (fun c => p c = true) (String.list_ascii_of_string s) ->
  Forall (fun c => p c = true) (String.list_ascii_of_string (rstrip s)).
Proof.
  induction s as [|c r IH]; [done|]. simpl. intros H.
  inversion H as [|? ? Hc Hr]; subst. specialize (IH Hr).
  destruct (rstrip r) as [|c' r'].
  - destruct (isspace c); simpl; by repeat constructor.
  - simpl. by constructor.
Qed.

Lemma keep_chars_chars (p : ascii -> bool) (s : string) :
  Forall (fun c => p c = true) (String.list_ascii_of_string (keep_chars p s)).
Proof.
  induction s as [|c r IH]; [constructor|]. simpl.
  destruct (p c) eqn:Hc; [|done]. simpl. by constructor.
Qed.

(** X27.  The name part of the export file name is made of letters, digits,
    spaces, hyphens and underscores only, so it holds no path separator
    and no dot, and it does not end in a space. *)
Theorem safe_name_is_safe (name : string) :
  Forall (fun c => isalnum c = true ∨ c = " "%char ∨ c = "-"%char ∨ c = "_"%char)
         (String.list_ascii_of_string (safe_name name))
  ∧ rstrip (safe_name name) = safe_name name.
Proof.
  split; [|apply rstrip_idem].
  eapply Forall_impl; [apply rstrip_chars, keep_chars_chars|].
  intros c Hc. simpl in Hc. unfold safe_char in Hc.
  apply orb_true_iff in Hc as [Hc|Hc]; [|right; right; right; by apply Ascii.eqb_eq].
  apply orb_true_iff in Hc as [Hc|Hc]; [|right; right; left; by apply Ascii.eqb_eq].
  apply orb_true_iff in Hc as [Hc|Hc]; [by left|right; left; by apply Ascii.eqb_eq].
Qed.

End ExportBoard.

(** The export of "Sprint" in [demo_db]: one task, which is OPEN. *)
Lemma export_board_counts_witness :
  let l := ProjectBoard.board_tasks B1 (tasks demo_db) in
  let b := mk_board B1 "Sprint" "" T1 "2025-01-01T09:04:00" "OPEN" None in
  ProjectBoard.export_board "2025-01-01T10:00:00" (Some B1) demo_db =
    ProjectBoard.Exported "board_Sprint_bbbbbbbb.txt"
      (ProjectBoard.join_lines
         (ProjectBoard.export_content "2025-01-01T10:00:00" b l
            (ProjectBoard.mk_task_counts 1 0 0)))
  ∧ 1 + 0 + 0 = length l.
Proof.
  intros l b.
  assert (B1 ≠ "") as Hne by (vm_compute; discriminate).
  assert (ProjectBoard.find_board B1 (boards demo_db) = Some b) as Hb
    by (vm_compute; reflexivity).
  pose proof (export_board_counts canonical_uuid "2025-01-01T10:00:00" B1 demo_db b
                demo_db_reachable Hne Hb) as [H1 H2].
  split.
  - rewrite H1. vm_compute. reflexivity.
  - vm_compute. reflexivity.
Defined.

(** ** The status of the response *)

Section Responses.

Import User Teams ProjectBoard.

Variable uuid_ok : string -> bool.

Ltac unfold_ops :=
  unfold create_user, update_user, validate_name, validate_uuid, validate_display_name,
    validate_required_field, validate_string_length, _check_name_uniqueness,
    list_users, describe_user, get_user_teams, _find_user_by_id,
    create_team, update_team, add_users_to_team, remove_users_from_team,
    list_teams, describe_team, list_team_users,
    create_board, close_board, add_task, resolve_board, update_task_status, list_boards.

(** X2.  The failure kinds that the HTTP layer tells apart, for a request
    with string fields.  [teams.py] and [board.py] raise only
    [ValueError], which [dispatch] answers with 400; [user.py] raises
    only the exceptions of [utils/exceptions.py], which are no
    [ValueError] and which [dispatch] answers with 500.  This holds for
    the ten writing operations and, [export_board] apart, the reading
    ones on every store, and for [export_board] on every store the
    service reaches: there the counting loop raises no [KeyError]. *)
Theorem error_status :
  (∀ o s e, exec_failure uuid_ok o s = Some e ->
            response_status uuid_ok o s = if is_user_op o then 500 else 400)
  ∧ (∀ q s, (∀ now id, q ≠ ExportBoard now id) ->
            query_status uuid_ok q s = 200
            ∨ query_status uuid_ok q s = if is_user_query q then 500 else 400)
  ∧ (∀ now id s, reachable uuid_ok s ->
            query_status uuid_ok (ExportBoard now id) s = 200
            ∨ query_status uuid_ok (ExportBoard now id) s = 400).
Proof.
  split; [|split].
  - intros o s e.
    destruct o; simpl; unfold_ops; unfold_monad; branches; (done || discriminate).
  - intros q s Hq.
    destruct q; simpl; try (by destruct (Hq now id));
      unfold_ops; unfold_monad; branches; first [by left | by right].
  - intros now id s Hs. simpl. unfold export_board.
    destruct id as [board_id|]; [|by right].
    destruct (truthy board_id); [|by right]. simpl.
    destruct (find_board board_id (boards s)) as [b|]; [|by right].
    assert (Forall (fun t => k_status t ∈ valid_statuses) (board_tasks board_id (tasks s)))
      as Hvalid.
    { apply reachable_tasks_inv in Hs as [Hok _]. rewrite Forall_forall in Hok.
      apply Forall_forall. intros t [_ Ht]%list_elem_of_filter. by apply Hok. }
    rewrite (count_tasks_valid _ _ Hvalid). by left.
Qed.

End Responses.

(** In [demo_db]: a duplicate team name is answered with 400 and a
    duplicate user name with 500; a team that is not found with 400 and a
    user that is not found with 500; the export of a board that is not
    found with 400 and the export of "Sprint" with 200. *)
Lemma error_status_witness :
  (response_status canonical_uuid
     (CreateTeam T2 "2025-01-01T10:00:00" (Teams.mk_create_team_request "dev" "" U1)) demo_db
   = 400
   ∧ response_status canonical_uuid
       (CreateUser K2 "2025-01-01T10:00:00" (User.mk_create_user_request "alice" "")) demo_db
     = 500)
  ∧ (query_status canonical_uuid (DescribeTeam (Some T1)) demo_db = 200
     ∧ query_status canonical_uuid (DescribeTeam (Some K1)) demo_db = 400
     ∧ query_status canonical_uuid (DescribeUser K1) demo_db = 500)
  ∧ (query_status canonical_uuid (ExportBoard "2025-01-01T10:00:00" (Some B1)) demo_db = 200
     ∧ query_status canonical_uuid (ExportBoard "2025-01-01T10:00:00" (Some K1)) demo_db
       = 400).
Proof.
  pose proof (error_status canonical_uuid) as (Hw & Hr & He).
  assert (exec_failure canonical_uuid
            (CreateTeam T2 "2025-01-01T10:00:00" (Teams.mk_create_team_request "dev" "" U1))
            demo_db = Some (ValueError "Team name must be unique")) as H1
    by (vm_compute; reflexivity).
  assert (exec_failure canonical_uuid
            (CreateUser K2 "2025-01-01T10:00:00" (User.mk_create_user_request "alice" ""))
            demo_db = Some (DuplicateResourceError "User name must be unique")) as H2
    by (vm_compute; reflexivity).
  split; [split; [exact (Hw _ _ _ H1) | exact (Hw _ _ _ H2)]|].
  split; [split; [|split]|split].
  - vm_compute. reflexivity.
  - pose proof (Hr (DescribeTeam (Some K1)) demo_db ltac:(done)) as [H|H]; [|exact H].
    vm_compute in H. discriminate H.
  - pose proof (Hr (DescribeUser K1) demo_db ltac:(done)) as [H|H]; [|exact H].
    vm_compute in H. discriminate H.
  - vm_compute. reflexivity.
  - pose proof (He "2025-01-01T10:00:00" (Some K1) demo_db demo_db_reachable) as [H|H];
      [|exact H].
    vm_compute in H. discriminate H.
Defined.

(** ** UpdateUser and DescribeTeam *)

Section MoreReadBack.

Import User Teams.

Variable uuid_ok : string -> bool.


Lemma create_team_inv fresh now req s id s' :
  create_team fresh now req s = (Return id, s') ->
  id = fresh
  ∧ s' = mk_db (users s)
               (teams s ++ [mk_team fresh (strip (ct_name req)) (strip (ct_description req))
                                    (strip (ct_admin req)) [strip (ct_admin req)] now])
               (boards s) (tasks s).
Proof.
  unfold create_team. unfold_monad. branches; intros [= <- <-]; done.
Qed.

(** X29.  A team just created can be read back: when [create_team] returns
    and no stored team had the new id, [describe_team] with the returned
    id gives the stripped name, description and admin of the request and
    the creation time of the call. *)
Theorem create_then_describe_team fresh now req s id s' :
  create_team fresh now req s = (Return id, s') ->
  fresh ≠ "" -> (∀ t, t ∈ teams s -> t_id t ≠ fresh) ->
  describe_team (Some id) s' =
    (Return (mk_team_info (strip (ct_name req)) (strip (ct_description req)) now
                          (strip (ct_admin req))), s').
Proof.
  intros Hrun Hne Hfresh. apply create_team_inv in Hrun as [-> ->].
  unfold describe_team. unfold_monad. apply truthy_spec in Hne. rewrite Hne. simpl.
  rewrite (find_snoc_new (fun t => String.eqb (t_id t) fresh)); [done| |apply String.eqb_refl].
  intros t Ht. apply String.eqb_neq. by apply Hfresh.
Qed.

End MoreReadBack.


Lemma create_then_describe_team_witness :
  let fresh := "aaaaaaaa-0000-4000-8000-000000000003" in
  let req := Teams.mk_create_team_request " ops " "Operations" U2 in
  let s' := (Teams.create_team fresh "2025-01-01T10:00:00" req demo_db).2 in
  Teams.describe_team (Some fresh) s' =
    (Return (Teams.mk_team_info "ops" "Operations" "2025-01-01T10:00:00" U2), s').
Proof.
  intros fresh req s'.
  assert (Teams.create_team fresh "2025-01-01T10:00:00" req demo_db = (Return fresh, s'))
    as Hrun by (vm_compute; reflexivity).
  assert (fresh ≠ "") as Hne by (vm_compute; discriminate).
  pose proof (create_then_describe_team fresh "2025-01-01T10:00:00" req demo_db fresh s'
                Hrun Hne) as H.
  rewrite H; [vm_compute; reflexivity|].
  intros t Ht. by_cases_on_list Ht.
Defined.
